(** * VisionInterpreter: a shallow embedding of [vision_interpreter.py]

    The module interprets the output of a camera vision model.  The class
    [VisionInterpreter] holds two constant rule tables and offers
    [analyze], which reads four fields from a dictionary and calls
    [_generate_summary], [_create_description], [_analyze_context] and
    [_check_suspicious_activity]; [format_output] renders the result.

    Python strings are modelled as [string], Python lists as [list], the two
    rule dictionaries as association lists in insertion order (the order in
    which [dict.items()] iterates), and the input dictionary as a
    [gmap string pyval].  The four methods are given twice: on the types of
    their annotations, and on Python values with the exceptions of the
    operations; an instance is the record of its two attributes, and a method
    call a function from the instance to its result and the instance after
    the call. *)

From Stdlib Require Import ZArith Lia.
From Stdlib Require Import Strings.String Strings.Ascii.
From stdpp Require Import gmap strings list.

#[local] Set Warnings "-register-all".
#[local] Arguments String.append !_ _ / : simpl nomatch.

(** ** Python values *)

(** The values that occur in the program: the [Any] of [Dict[str, Any]], and
    the list and boolean operands of the conditions in [unusual_checks]. *)
Inductive pyval : Type :=
  | PNone
  | PBool (b : bool)
  | PInt (z : Z)
  | PStr (s : string)
  | PList (l : list pyval).

(** Truth value testing: [None], [False], [0], the empty string and the empty
    list are false, everything else is true. *)
Definition truthy (v : pyval) : bool :=
  match v with
  | PNone => false
  | PBool b => b
  | PInt z => negb (Z.eqb z 0)
  | PStr s => negb (String.eqb s "")
  | PList l => match l with [] => false | _ :: _ => true end
  end.

(** [x and y]: the value of [x] when [x] is false, the value of [y]
    otherwise. *)
Definition py_and (x y : pyval) : pyval :=
  if truthy x then y else x.

(** ** Strings and lists of strings *)

(** [x in l] for a list (or tuple) [l] of strings. *)
Fixpoint str_in (x : string) (l : list string) : bool :=
  match l with
  | [] => false
  | y :: l' => String.eqb x y || str_in x l'
  end.

(** [sep.join(l)]. *)
Fixpoint join (sep : string) (l : list string) : string :=
  match l with
  | [] => ""
  | [x] => x
  | x :: l' => x +:+ sep +:+ join sep l'
  end.

(** ** The data model *)

Inductive SuspicionLevel : Type :=
  | NORMAL
  | UNUSUAL
  | SUSPICIOUS.

Definition SuspicionLevel_value (l : SuspicionLevel) : string :=
  match l with
  | NORMAL => "normal"
  | UNUSUAL => "unusual"
  | SUSPICIOUS => "suspicious"
  end.

(** The order of escalation NORMAL < UNUSUAL < SUSPICIOUS. *)
Definition level_rank (l : SuspicionLevel) : nat :=
  match l with
  | NORMAL => 0
  | UNUSUAL => 1
  | SUSPICIOUS => 2
  end.

Definition level_le (a b : SuspicionLevel) : Prop :=
  level_rank a <= level_rank b.

Record VisionAnalysis : Type := mkVisionAnalysis {
  summary : string;
  description : string;
  context : string;
  suspicion_level : SuspicionLevel;
  highlights : list string
}.

(** ** The rule tables assigned in [__init__] *)

Definition common_combinations : list (list string * string) :=
  [ (["person"; "dog"], "walking a dog");
    (["person"; "bicycle"], "cycling or with a bicycle");
    (["person"; "car"], "near or entering a vehicle");
    (["person"; "bag"], "carrying belongings");
    (["person"; "phone"], "using a mobile device") ].

Definition suspicious_patterns : list (list string * string) :=
  [ (["person"; "window"; "night"], "possible intrusion attempt");
    (["person"; "running"; "bag"], "potential theft in progress");
    (["person"; "mask"; "weapon"], "armed individual");
    (["fire"; "smoke"], "fire hazard detected") ].

(** ** [_generate_summary] *)

Definition _generate_summary (objects : list string) (scene action : string)
  : string :=
  match objects with
  | [] => "Empty " +:+ scene +:+ " scene detected."
  | main_subject :: _ =>
      "A " +:+ main_subject +:+ " " +:+ action +:+ " in a " +:+ scene
        +:+ " setting."
  end.

(** ** [_create_description] *)

(** The inner loop over [common_combinations.items()], left by [break] at
    the first combination that holds both "person" and [obj]. *)
Fixpoint combinations_loop (combos : list (list string * string))
    (obj person_desc : string) : string :=
  match combos with
  | [] => person_desc
  | (combo, activity) :: rest =>
      if str_in "person" combo && str_in obj combo
      then "A person is " +:+ activity
      else combinations_loop rest obj person_desc
  end.

(** The outer loop [for obj in objects]. *)
Fixpoint objects_loop (objects : list string) (person_desc : string)
  : string :=
  match objects with
  | [] => person_desc
  | obj :: rest =>
      objects_loop rest
        (if negb (String.eqb obj "person")
         then combinations_loop common_combinations obj person_desc
         else person_desc)
  end.

(** The value of [person_desc] when it is appended to [desc_parts]. *)
Definition person_desc (objects : list string) (action : string) : string :=
  objects_loop objects ("A person is " +:+ action).

(** [[obj for obj in objects if obj != "person"]]. *)
Definition other_objects (objects : list string) : list string :=
  List.filter (fun obj => negb (String.eqb obj "person")) objects.

Definition desc_parts (objects : list string) (action : string)
  : list string :=
  (if str_in "person" objects then [person_desc objects action] else [])
  ++ match other_objects objects with
     | [] => []
     | [o] => ["A " +:+ o +:+ " is also visible"]
     | others => ["Also visible: " +:+ join ", " others]
     end.

Definition _create_description (objects : list string) (scene action : string)
  : string :=
  match objects with
  | [] =>
      "The camera shows an empty " +:+ scene +:+ " with no significant activity."
  | _ :: _ =>
      join ". " (desc_parts objects action) +:+ " on a " +:+ scene +:+ "."
  end.

(** ** [_analyze_context] *)

Definition scene_contexts (scene : string) : list string :=
  if str_in scene ["street"; "sidewalk"; "road"]
  then ["This appears to be a public urban area"]
  else if str_in scene ["park"; "garden"; "field"]
  then ["This is an outdoor recreational area"]
  else if str_in scene ["home"; "house"; "apartment"]
  then ["This is a residential setting"]
  else if str_in scene ["store"; "shop"; "mall"]
  then ["This is a commercial environment"]
  else [].

Definition action_contexts (action : string) : list string :=
  if str_in action ["running"; "jogging"]
  then ["showing active movement"]
  else if str_in action ["sitting"; "standing"; "waiting"]
  then ["with minimal activity"]
  else if str_in action ["walking"; "strolling"]
  then ["with normal pedestrian movement"]
  else [].

Definition object_contexts (objects : list string) : list string :=
  if str_in "person" objects && str_in "dog" objects
  then ["likely a pet owner during routine exercise"]
  else if str_in "person" objects && str_in "bicycle" objects
  then ["suggesting eco-friendly transportation or recreation"]
  else [].

Definition _analyze_context (objects : list string) (scene action : string)
  : string :=
  match (scene_contexts scene ++ action_contexts action
         ++ object_contexts objects)%list with
  | [] => "Standard scene with typical elements."
  | contexts => join ". " contexts +:+ "."
  end.

(** ** [_check_suspicious_activity] *)

(** The text put in front of every highlight, as it stands in the source
    file. *)
Definition alert_prefix : string := "‚ö†Ô∏è ".

(** The loop state: [suspicion_level] and [highlights]. *)
Definition check_state : Type := SuspicionLevel * list string.

(** [all(item in objects + [action, time] for item in pattern)]. *)
Definition pattern_matches (objects : list string) (action time : string)
    (pattern : list string) : bool :=
  forallb (fun item => str_in item (objects ++ [action; time])) pattern.

(** One iteration of the loop over [suspicious_patterns.items()]. *)
Definition pattern_step (objects : list string) (action time : string)
    (st : check_state) (rule : list string * string) : check_state :=
  let '(pattern, warning) := rule in
  if pattern_matches objects action time pattern
  then (SUSPICIOUS, st.2 ++ [alert_prefix +:+ warning])
  else st.

(** The list [unusual_checks] of conditions and messages.  The operands of
    [and] in its first two entries, and the whole condition of the last one,
    are list displays. *)
Definition unusual_checks (scene action time : string)
  : list (pyval * string) :=
  [ (py_and (PList [PStr "person"; PStr "running"])
            (PBool (String.eqb time "night")),
     "Person running at night");
    (py_and (PList [PStr "person"])
            (PBool (String.eqb scene "restricted")),
     "Unauthorized person in restricted area");
    (py_and (PBool (String.eqb action "climbing"))
            (PBool (negb (String.eqb scene "gym"))),
     "Unusual climbing activity");
    (PList [PStr "crowd"; PStr "running"],
     "Multiple people running - possible emergency") ].

(** One iteration of the loop over [unusual_checks]. *)
Definition unusual_step (st : check_state) (chk : pyval * string)
  : check_state :=
  let '(condition, message) := chk in
  if truthy condition
  then (match st.1 with NORMAL => UNUSUAL | lvl => lvl end,
        st.2 ++ [alert_prefix +:+ message])
  else st.

Definition _check_suspicious_activity (objects : list string)
    (scene action time : string) : check_state :=
  fold_left unusual_step (unusual_checks scene action time)
    (fold_left (pattern_step objects action time) suspicious_patterns
       (NORMAL, [])).

(** ** [format_output] *)

Definition nl : string := String (ascii_of_nat 10) "".

(** [s * n]. *)
Fixpoint str_repeat (s : string) (n : nat) : string :=
  match n with
  | O => ""
  | S n' => s +:+ str_repeat s n'
  end.

(** [str.upper] on the letters a to z; the strings it is applied to are the
    values of [SuspicionLevel]. *)
Definition upper_ascii (c : ascii) : ascii :=
  let n := nat_of_ascii c in
  if (97 <=? n)%nat && (n <=? 122)%nat then ascii_of_nat (n - 32) else c.

Fixpoint upper (s : string) : string :=
  match s with
  | EmptyString => EmptyString
  | String c s' => String (upper_ascii c) (upper s')
  end.

Definition no_alert_line : string :=
  nl +:+ "‚úÖ No unusual activity detected".

(** The list [output] before it is joined: the lines appended before the
    test of [analysis.highlights], the lines of its two branches, and the
    closing rule. *)
Definition report_head (analysis : VisionAnalysis) : list string :=
  [ str_repeat "=" 50;
    "VISION ANALYSIS REPORT";
    str_repeat "=" 50;
    nl +:+ "üìç SUMMARY: " +:+ summary analysis;
    nl +:+ "üìù DESCRIPTION: " +:+ description analysis;
    nl +:+ "üîç CONTEXT: " +:+ context analysis;
    nl +:+ "üö® SUSPICION LEVEL: "
       +:+ upper (SuspicionLevel_value (suspicion_level analysis)) ].

Definition alert_lines (highlights : list string) : list string :=
  (nl +:+ "‚ö†Ô∏è ALERTS:")
  :: map (fun highlight => "  - " +:+ highlight) highlights.

Definition report_foot : string := nl +:+ str_repeat "=" 50.

Definition output_lines (analysis : VisionAnalysis) : list string :=
  report_head analysis
  ++ match highlights analysis with
     | [] => [no_alert_line]
     | _ :: _ => alert_lines (highlights analysis)
     end
  ++ [report_foot].

Definition format_output (analysis : VisionAnalysis) : string :=
  join nl (output_lines analysis).

(** * The program on dynamically typed values

    [analyze] reads its four fields with [dict.get] and passes them on
    unchecked, so the four methods can receive any value.  This part gives
    them on [pyval], with the exceptions the operations raise. *)

Inductive exn : Type :=
  | TypeError
  | IndexError
  | ValueError
  | RecursionError.

Inductive result (A : Type) : Type :=
  | Ok (a : A)
  | Raise (e : exn).
Arguments Ok {A} a.
Arguments Raise {A} e.

#[global] Instance result_ret : MRet result := fun A a => Ok a.
#[global] Instance result_bind : MBind result := fun A B f m =>
  match m with
  | Ok a => f a
  | Raise e => Raise e
  end.

(** [v == s] for a string [s], which is what every comparison of the program
    is: a value that is not a string is equal to none. *)
Definition py_eq_str (v : pyval) (s : string) : bool :=
  match v with
  | PStr x => String.eqb x s
  | _ => false
  end.

(** A string is the UTF-8 encoding of a Python [str]; its characters are the
    groups made of a byte and the continuation bytes (10xxxxxx) after it. *)
Definition is_continuation (c : ascii) : bool :=
  let n := nat_of_ascii c in
  (128 <=? n)%nat && (n <? 192)%nat.

Fixpoint utf8_chars (s : string) : list string :=
  match s with
  | EmptyString => []
  | String c s' =>
      match s' with
      | String c' _ =>
          if is_continuation c'
          then match utf8_chars s' with
               | g :: gs => String c g :: gs
               | [] => [String c EmptyString]
               end
          else String c EmptyString :: utf8_chars s'
      | EmptyString => [String c EmptyString]
      end
  end.

(** [sub in s] for two strings. *)
Fixpoint substringb (sub s : string) : bool :=
  String.prefix sub s
  || match s with
     | EmptyString => false
     | String _ s' => substringb sub s'
     end.

(** [v[0]]. *)
Definition py_getitem0 (v : pyval) : result pyval :=
  match v with
  | PList (x :: _) => Ok x
  | PList [] => Raise IndexError
  | PStr s =>
      match utf8_chars s with
      | c :: _ => Ok (PStr c)
      | [] => Raise IndexError
      end
  | _ => Raise TypeError
  end.

(** [s in container] for a string [s]. *)
Definition py_contains (s : string) (container : pyval) : result bool :=
  match container with
  | PList l => Ok (existsb (fun e => py_eq_str e s) l)
  | PStr text => Ok (substringb s text)
  | _ => Raise TypeError
  end.

(** The items [for obj in v] runs through. *)
Definition py_iter (v : pyval) : result (list pyval) :=
  match v with
  | PList l => Ok l
  | PStr s => Ok (map PStr (utf8_chars s))
  | _ => Raise TypeError
  end.

(** [v + l] for a list display [l]. *)
Definition py_add_list (v : pyval) (l : list pyval) : result pyval :=
  match v with
  | PList l0 => Ok (PList (l0 ++ l))
  | _ => Raise TypeError
  end.

(** [sep.join(l)]: every item has to be a string. *)
Fixpoint py_strings (l : list pyval) : result (list string) :=
  match l with
  | [] => Ok []
  | PStr s :: l' => ss ← py_strings l'; Ok (s :: ss)
  | _ :: _ => Raise TypeError
  end.

Definition py_join (sep : string) (l : list pyval) : result string :=
  ss ← py_strings l; Ok (join sep ss).

Module Dyn.
Section WithStr.

(** [str(v)] for an integer or a list [v]: its text, or the exception the
    conversion raises (ValueError for an integer of more digits than the
    interpreter converts, RecursionError for a list nested deeper than it
    follows).  It is a builtin of the language and is left open. *)
Variable py_str : pyval -> result string.

(** The text a replacement field [{v}] of an f-string produces. *)
Definition py_format (v : pyval) : result string :=
  match v with
  | PStr s => Ok s
  | PNone => Ok "None"
  | PBool true => Ok "True"
  | PBool false => Ok "False"
  | PInt _ => py_str v
  | PList _ => py_str v
  end.

Definition _generate_summary (objects scene action : pyval) : result string :=
  if negb (truthy objects)
  then
    scene_text ← py_format scene;
    Ok ("Empty " +:+ scene_text +:+ " scene detected.")
  else
    main_subject ←
      (if truthy objects then py_getitem0 objects else Ok (PStr "object"));
    subject_text ← py_format main_subject;
    action_text ← py_format action;
    scene_text ← py_format scene;
    Ok ("A " +:+ subject_text +:+ " " +:+ action_text
          +:+ " in a " +:+ scene_text +:+ " setting.").

Fixpoint combinations_loop (combos : list (list string * string))
    (obj : pyval) (person_desc : string) : string :=
  match combos with
  | [] => person_desc
  | (combo, activity) :: rest =>
      if str_in "person" combo
         && existsb (fun e => py_eq_str obj e) combo
      then "A person is " +:+ activity
      else combinations_loop rest obj person_desc
  end.

Fixpoint objects_loop (combinations : list (list string * string))
    (objects : list pyval) (person_desc : string) : string :=
  match objects with
  | [] => person_desc
  | obj :: rest =>
      objects_loop combinations rest
        (if negb (py_eq_str obj "person")
         then combinations_loop combinations obj person_desc
         else person_desc)
  end.

(** The body of [_create_description]; [combinations] is what it reads from
    [self.common_combinations]. *)
Definition _create_description (combinations : list (list string * string))
    (objects scene action : pyval) : result string :=
  if negb (truthy objects)
  then
    scene_text ← py_format scene;
    Ok ("The camera shows an empty " +:+ scene_text
          +:+ " with no significant activity.")
  else
    has_person ← py_contains "person" objects;
    person_part ←
      (if has_person : bool
       then action_text ← py_format action;
            objs ← py_iter objects;
            Ok [objects_loop combinations objs
                  ("A person is " +:+ action_text)]
       else Ok []);
    objs ← py_iter objects;
    let other_objects :=
      List.filter (fun obj => negb (py_eq_str obj "person")) objs in
    others_part ←
      match other_objects with
      | [] => Ok []
      | [o] => o_text ← py_format o;
               Ok ["A " +:+ o_text +:+ " is also visible"]
      | _ => joined ← py_join ", " other_objects;
             Ok ["Also visible: " +:+ joined]
      end;
    scene_text ← py_format scene;
    Ok (join ". " (person_part ++ others_part)
          +:+ " on a " +:+ scene_text +:+ ".").

(** [v in l] for a list display [l] of string literals. *)
Definition in_literals (v : pyval) (l : list string) : bool :=
  existsb (fun e => py_eq_str v e) l.

Definition scene_contexts (scene : pyval) : list string :=
  if in_literals scene ["street"; "sidewalk"; "road"]
  then ["This appears to be a public urban area"]
  else if in_literals scene ["park"; "garden"; "field"]
  then ["This is an outdoor recreational area"]
  else if in_literals scene ["home"; "house"; "apartment"]
  then ["This is a residential setting"]
  else if in_literals scene ["store"; "shop"; "mall"]
  then ["This is a commercial environment"]
  else [].

Definition action_contexts (action : pyval) : list string :=
  if in_literals action ["running"; "jogging"]
  then ["showing active movement"]
  else if in_literals action ["sitting"; "standing"; "waiting"]
  then ["with minimal activity"]
  else if in_literals action ["walking"; "strolling"]
  then ["with normal pedestrian movement"]
  else [].

(** ["person" in objects and other in objects]. *)
Definition person_and (other : string) (objects : pyval) : result bool :=
  has_person ← py_contains "person" objects;
  if has_person : bool then py_contains other objects else Ok false.

Definition object_contexts (objects : pyval) : result (list string) :=
  with_dog ← person_and "dog" objects;
  if with_dog : bool
  then Ok ["likely a pet owner during routine exercise"]
  else
    with_bicycle ← person_and "bicycle" objects;
    if with_bicycle : bool
    then Ok ["suggesting eco-friendly transportation or recreation"]
    else Ok [].

Definition _analyze_context (objects scene action : pyval) : result string :=
  from_objects ← object_contexts objects;
  match (scene_contexts scene ++ action_contexts action
         ++ from_objects)%list with
  | [] => Ok "Standard scene with typical elements."
  | contexts => Ok (join ". " contexts +:+ ".")
  end.

(** [all(item in objects + [action, time] for item in pattern)]: the sum is
    evaluated for every item that is reached. *)
Fixpoint pattern_matches (objects action time : pyval)
    (pattern : list string) : result bool :=
  match pattern with
  | [] => Ok true
  | item :: rest =>
      tokens ← py_add_list objects [action; time];
      found ← py_contains item tokens;
      if found : bool
      then pattern_matches objects action time rest
      else Ok false
  end.

Fixpoint patterns_loop (objects action time : pyval)
    (rules : list (list string * string)) (st : check_state)
  : result check_state :=
  match rules with
  | [] => Ok st
  | (pattern, warning) :: rest =>
      matched ← pattern_matches objects action time pattern;
      patterns_loop objects action time rest
        (if matched : bool
         then (SUSPICIOUS, st.2 ++ [alert_prefix +:+ warning])
         else st)
  end.

Definition unusual_checks (scene action time : pyval)
  : list (pyval * string) :=
  [ (py_and (PList [PStr "person"; PStr "running"])
            (PBool (py_eq_str time "night")),
     "Person running at night");
    (py_and (PList [PStr "person"])
            (PBool (py_eq_str scene "restricted")),
     "Unauthorized person in restricted area");
    (py_and (PBool (py_eq_str action "climbing"))
            (PBool (negb (py_eq_str scene "gym"))),
     "Unusual climbing activity");
    (PList [PStr "crowd"; PStr "running"],
     "Multiple people running - possible emergency") ].

(** The body of [_check_suspicious_activity]; [patterns] is what it reads
    from [self.suspicious_patterns]. *)
Definition _check_suspicious_activity (patterns : list (list string * string))
    (objects scene action time : pyval) : result check_state :=
  st ← patterns_loop objects action time patterns (NORMAL, []);
  Ok (fold_left unusual_step (unusual_checks scene action time) st).

End WithStr.
End Dyn.

(** ** The instance and its methods *)

(** An instance of [VisionInterpreter]: its two attributes. *)
Record VisionInterpreter : Type := mkVisionInterpreter {
  self_common_combinations : list (list string * string);
  self_suspicious_patterns : list (list string * string)
}.

(** The instance [VisionInterpreter()] builds. *)
Definition __init__ : VisionInterpreter :=
  mkVisionInterpreter common_combinations suspicious_patterns.

(** A method call: from the instance to what the call returns or raises and
    the instance after the call. *)
Definition method (A : Type) : Type :=
  VisionInterpreter -> result A * VisionInterpreter.

#[global] Instance method_ret : MRet method := fun A a self => (Ok a, self).
#[global] Instance method_bind : MBind method := fun A B f m self =>
  match m self with
  | (Ok a, self') => f a self'
  | (Raise e, self') => (Raise e, self')
  end.

(** Reading an attribute of [self]. *)
Definition read_attr {A : Type} (attr : VisionInterpreter -> A) : method A :=
  fun self => (Ok (attr self), self).

(** A computation that does not touch [self]. *)
Definition no_attr {A : Type} (r : result A) : method A :=
  fun self => (r, self).

(** [vision_input.get(key, default)]. *)
Definition dict_get (vision_input : gmap string pyval) (key : string)
    (default : pyval) : pyval :=
  match vision_input !! key with
  | Some v => v
  | None => default
  end.

Module Method.
Section WithStr.

Variable py_str : pyval -> result string.

Definition _generate_summary (objects scene action : pyval) : method string :=
  no_attr (Dyn._generate_summary py_str objects scene action).

Definition _create_description (objects scene action : pyval)
  : method string :=
  combinations ← read_attr self_common_combinations;
  no_attr (Dyn._create_description py_str combinations objects scene action).

Definition _analyze_context (objects scene action : pyval) : method string :=
  no_attr (Dyn._analyze_context objects scene action).

Definition _check_suspicious_activity (objects scene action time : pyval)
  : method check_state :=
  patterns ← read_attr self_suspicious_patterns;
  no_attr (Dyn._check_suspicious_activity patterns objects scene action time).

Definition analyze (vision_input : gmap string pyval)
  : method VisionAnalysis :=
  let objects := dict_get vision_input "detected_objects" (PList []) in
  let scene := dict_get vision_input "scene" (PStr "unknown") in
  let action := dict_get vision_input "action" (PStr "stationary") in
  let time_of_day := dict_get vision_input "time" (PStr "day") in
  summary ← _generate_summary objects scene action;
  description ← _create_description objects scene action;
  context ← _analyze_context objects scene action;
  '(suspicion_level, highlights) ←
    _check_suspicious_activity objects scene action time_of_day;
  mret (mkVisionAnalysis summary description context suspicion_level
          highlights).

End WithStr.
End Method.

(** ** [analyze] *)

(** [VisionInterpreter().analyze(vision_input)]. *)
Definition analyze (py_str : pyval -> result string)
    (vision_input : gmap string pyval) : result VisionAnalysis :=
  (Method.analyze py_str vision_input __init__).1.

(** A caller that calls [analyze] on one instance for every input of a list in
    turn and keeps what each call returns or raises. *)
Fixpoint calls (py_str : pyval -> result string)
    (inputs : list (gmap string pyval)) (self : VisionInterpreter)
  : list (result VisionAnalysis) * VisionInterpreter :=
  match inputs with
  | [] => ([], self)
  | vision_input :: rest =>
      let '(r, self') := Method.analyze py_str vision_input self in
      let '(rs, self'') := calls py_str rest self' in
      (r :: rs, self'')
  end.

(** The analysis of an instance with the given tables, as a function of the
    four values [analyze] reads. *)
Definition analysis_of (py_str : pyval -> result string)
    (combinations patterns : list (list string * string))
    (objects scene action time : pyval) : result VisionAnalysis :=
  summary ← Dyn._generate_summary py_str objects scene action;
  description ←
    Dyn._create_description py_str combinations objects scene action;
  context ← Dyn._analyze_context objects scene action;
  '(suspicion_level, highlights) ←
    Dyn._check_suspicious_activity patterns objects scene action time;
  Ok (mkVisionAnalysis summary description context suspicion_level
        highlights).

(** ** The evaluation of the rules, one at a time *)

(** The iterations [_check_suspicious_activity] runs, in order: one for every
    entry of [suspicious_patterns], then one for every entry of
    [unusual_checks]. *)
Definition rule_steps (objects : list string) (scene action time : string)
  : list (check_state -> check_state) :=
  map (fun rule st => pattern_step objects action time st rule)
    suspicious_patterns
  ++ map (fun chk st => unusual_step st chk)
       (unusual_checks scene action time).

Definition run_steps (steps : list (check_state -> check_state))
    (st : check_state) : check_state :=
  fold_left (fun st step => step st) steps st.

(** The loop state after the first [k] iterations. *)
Definition state_after (k : nat) (objects : list string)
    (scene action time : string) : check_state :=
  run_steps (take k (rule_steps objects scene action time)) (NORMAL, []).

(** The highlight of a rule or of a check. *)
Definition highlight_of (entry : string) : string := alert_prefix +:+ entry.

(** A step that does not lower the level. *)
Definition never_lowers (step : check_state -> check_state) : Prop :=
  forall st, level_le st.1 (step st).1.

(** The catalog rules an observation matches and the checks whose condition
    is true, in evaluation order. *)
Definition matched_rules (objects : list string) (action time : string)
  : list (list string * string) :=
  List.filter (fun rule => pattern_matches objects action time rule.1)
    suspicious_patterns.

Definition fired_checks (scene action time : string)
  : list (pyval * string) :=
  List.filter (fun chk => truthy chk.1) (unusual_checks scene action time).

(** [sub] occurs in [s]. *)
Definition occurs_in (sub s : string) : Prop :=
  exists before after, s = before +:+ sub +:+ after.

(** ** The person clause in the words of the specification

    The specification has the label of the last combination rule, in the
    order of the catalog, that is matched by "person" and another detected
    object.  The two definitions below follow those words, for the comparison
    with [person_desc]. *)
Definition combination_matched (objects : list string)
    (rule : list string * string) : bool :=
  str_in "person" rule.1
  && existsb
       (fun obj => negb (String.eqb obj "person") && str_in obj rule.1)
       objects.

Definition last_match_person_desc (objects : list string) (action : string)
  : string :=
  match last (List.filter (combination_matched objects) common_combinations)
  with
  | Some rule => "A person is " +:+ rule.2
  | None => "A person is " +:+ action
  end.

(** ** The values of [detected_objects] that [analyze] accepts *)

Definition is_str (v : pyval) : bool :=
  match v with
  | PStr _ => true
  | _ => false
  end.

(** The items of a list other than "person". *)
Definition non_person (l : list pyval) : list pyval :=
  List.filter (fun obj => negb (py_eq_str obj "person")) l.

(** A list whose items other than "person" are at most one, or are all
    strings. *)
Definition accepted_objects (v : pyval) : bool :=
  match v with
  | PList l =>
      (length (non_person l) <=? 1)%nat || forallb is_str (non_person l)
  | _ => false
  end.

(** The items of a list. *)
Definition items (v : pyval) : list pyval :=
  match v with
  | PList l => l
  | _ => []
  end.

(** A value whose replacement field raises nothing. *)
Definition formats (py_str : pyval -> result string) (v : pyval) : Prop :=
  exists text, Dyn.py_format py_str v = Ok text.

(** ** The strings the program compares with *)


(** * Properties of the suspicion classifier *)

Section Loops.

Variables (objects : list string) (scene action time : string).

Lemma run_steps_app (l1 l2 : list (check_state -> check_state)) st :
  run_steps (l1 ++ l2) st = run_steps l2 (run_steps l1 st).
Proof. unfold run_steps. apply fold_left_app. Qed.

Lemma run_steps_map {A} (f : check_state -> A -> check_state) (l : list A) st :
  run_steps (map (fun x st => f st x) l) st = fold_left f l st.
Proof.
  revert st. induction l as [|x l IH]; intros st; [reflexivity|].
  simpl. apply IH.
Qed.

Lemma check_as_steps :
  _check_suspicious_activity objects scene action time
  = run_steps (rule_steps objects scene action time) (NORMAL, []).
Proof.
  unfold _check_suspicious_activity, rule_steps.
  rewrite run_steps_app, !run_steps_map. reflexivity.
Qed.

Lemma level_le_refl l : level_le l l.
Proof. unfold level_le. lia. Qed.

Lemma level_le_trans a b c : level_le a b -> level_le b c -> level_le a c.
Proof. unfold level_le. lia. Qed.

Lemma pattern_step_mono st rule :
  level_le st.1 (pattern_step objects action time st rule).1.
Proof.
  destruct rule as [pattern warning]. unfold pattern_step.
  destruct (pattern_matches objects action time pattern); simpl.
  - destruct st as [[] ?]; unfold level_le; simpl; lia.
  - apply level_le_refl.
Qed.

Lemma unusual_step_mono st chk : level_le st.1 (unusual_step st chk).1.
Proof.
  destruct chk as [condition message]. unfold unusual_step.
  destruct (truthy condition); simpl.
  - destruct st as [[] ?]; unfold level_le; simpl; lia.
  - apply level_le_refl.
Qed.

Lemma rule_steps_mono step :
  In step (rule_steps objects scene action time) -> never_lowers step.
Proof.
  unfold rule_steps. rewrite in_app_iff, !in_map_iff.
  intros [[rule [<- _]]|[chk [<- _]]] st.
  - apply pattern_step_mono.
  - apply unusual_step_mono.
Qed.

Lemma run_steps_mono steps st :
  (forall step, In step steps -> never_lowers step) ->
  level_le st.1 (run_steps steps st).1.
Proof.
  revert st. induction steps as [|step steps IH]; intros st Hall.
  - apply level_le_refl.
  - simpl. eapply level_le_trans.
    + apply (Hall step). now left.
    + apply IH. intros s Hs. apply Hall. now right.
Qed.

Lemma state_after_mono n m :
  n <= m ->
  level_le (state_after n objects scene action time).1
           (state_after m objects scene action time).1.
Proof.
  intros Hnm. unfold state_after.
  replace m with (n + (m - n)) by lia.
  rewrite <- take_take_drop, run_steps_app.
  apply run_steps_mono. intros step Hstep. apply rule_steps_mono.
  apply list_elem_of_In. apply list_elem_of_In in Hstep.
  apply (subseteq_drop n), (subseteq_take (m - n)), Hstep.
Qed.

End Loops.

Section ClosedForm.

Variables (objects : list string) (scene action time : string).

Lemma str_in_spec x l : str_in x l = true <-> In x l.
Proof.
  induction l as [|y l IH]; simpl; [easy|].
  rewrite orb_true_iff, String.eqb_eq, IH. intuition congruence.
Qed.

Lemma pattern_matches_spec pattern :
  pattern_matches objects action time pattern = true
  <-> forall tok, In tok pattern -> In tok objects \/ tok = action \/ tok = time.
Proof.
  unfold pattern_matches. rewrite forallb_forall.
  split; intros H tok Htok; specialize (H tok Htok).
  - apply str_in_spec, in_app_iff in H. simpl in H. intuition.
  - apply str_in_spec, in_app_iff. simpl. intuition.
Qed.

Lemma patterns_fold rules st :
  fold_left (pattern_step objects action time) rules st
  = (if existsb (fun rule => pattern_matches objects action time rule.1) rules
     then SUSPICIOUS else st.1,
     st.2 ++ map (fun rule => highlight_of rule.2)
               (List.filter
                  (fun rule => pattern_matches objects action time rule.1)
                  rules)).
Proof.
  revert st. induction rules as [|[pattern warning] rules IH]; intros st.
  - simpl. rewrite app_nil_r. now destruct st.
  - simpl. rewrite IH.
    destruct (pattern_matches objects action time pattern); simpl.
    + rewrite <- app_assoc. simpl.
      now destruct (existsb _ rules).
    + reflexivity.
Qed.

Lemma unusual_fold checks st :
  fold_left unusual_step checks st
  = (if existsb (fun chk => truthy chk.1) checks
     then match st.1 with NORMAL => UNUSUAL | lvl => lvl end
     else st.1,
     st.2 ++ map (fun chk => highlight_of chk.2)
               (List.filter (fun chk => truthy chk.1) checks)).
Proof.
  revert st. induction checks as [|[condition message] checks IH]; intros st.
  - simpl. rewrite app_nil_r. now destruct st.
  - simpl. rewrite IH.
    destruct (truthy condition); simpl.
    + rewrite <- app_assoc. simpl.
      destruct (existsb _ checks); now destruct st as [[] ?].
    + reflexivity.
Qed.

Lemma check_highlights :
  (_check_suspicious_activity objects scene action time).2
  = map (fun rule => highlight_of rule.2) (matched_rules objects action time)
    ++ map (fun chk => highlight_of chk.2) (fired_checks scene action time).
Proof.
  unfold _check_suspicious_activity. rewrite unusual_fold, patterns_fold.
  reflexivity.
Qed.

Lemma check_level :
  (_check_suspicious_activity objects scene action time).1
  = if existsb (fun rule => pattern_matches objects action time rule.1)
         suspicious_patterns
    then SUSPICIOUS else UNUSUAL.
Proof.
  unfold _check_suspicious_activity. rewrite unusual_fold, patterns_fold.
  cbn [fst]. unfold unusual_checks.
  replace (existsb _ _) with true at 1.
  - now destruct (existsb _ suspicious_patterns).
  - simpl. now rewrite !orb_true_r.
Qed.

End ClosedForm.

(** ** The claims about the classifier *)

Lemma occurs_in_highlight entry : occurs_in entry (highlight_of entry).
Proof.
  exists alert_prefix, "". unfold highlight_of.
  f_equal. clear. induction entry as [|c entry IH]; simpl; congruence.
Qed.

(** Brings the highlights of a call to the list they are, with the outcome
    of every catalog test and of every condition decided. *)
Ltac split_rule_outcomes :=
  rewrite ?check_highlights;
  unfold matched_rules, fired_checks, suspicious_patterns, unusual_checks;
  cbn [List.filter fst snd py_and truthy];
  repeat match goal with
    | |- context [pattern_matches ?o ?a ?t ?p] =>
        destruct (pattern_matches o a t p) eqn:?
    | |- context [String.eqb ?x ?y] =>
        destruct (String.eqb_spec x y)
    end;
  cbn [map app andb negb List.filter fst snd py_and truthy].

Ltac decide_membership :=
  rewrite <- ?str_in_spec; vm_compute;
  try solve [intuition (congruence || discriminate)].

Lemma last_check_highlight objects scene action time :
  In (highlight_of "Multiple people running - possible emergency")
    (_check_suspicious_activity objects scene action time).2.
Proof.
  rewrite check_highlights. apply in_or_app. right.
  unfold fired_checks, unusual_checks.
  cbn [List.filter fst snd py_and truthy].
  repeat match goal with
    | |- context [if ?b then _ else _] => destruct b
    end; simpl; tauto.
Qed.

(** C1: within one call of [_check_suspicious_activity] the level starts at
    NORMAL, a catalog match sets it to SUSPICIOUS, a true condition of
    [unusual_checks] raises it to UNUSUAL only when it is still NORMAL, and no
    iteration lowers it: the level after [n] iterations is at most the level
    after [m >= n] iterations, and once SUSPICIOUS it stays SUSPICIOUS. *)
Theorem suspicion_level_never_lowered :
  forall (objects : list string) (scene action time : string),
    (state_after 0 objects scene action time).1 = NORMAL
    /\ state_after 8 objects scene action time
       = _check_suspicious_activity objects scene action time
    /\ (forall st pattern warning,
          pattern_matches objects action time pattern = true ->
          (pattern_step objects action time st (pattern, warning)).1
          = SUSPICIOUS)
    /\ (forall st pattern warning,
          pattern_matches objects action time pattern = false ->
          pattern_step objects action time st (pattern, warning) = st)
    /\ (forall st condition message,
          truthy condition = true ->
          (unusual_step st (condition, message)).1
          = match st.1 with NORMAL => UNUSUAL | lvl => lvl end)
    /\ (forall st condition message,
          truthy condition = false ->
          unusual_step st (condition, message) = st)
    /\ (forall n m, n <= m ->
          level_le (state_after n objects scene action time).1
                   (state_after m objects scene action time).1)
    /\ (forall n m, n <= m ->
          (state_after n objects scene action time).1 = SUSPICIOUS ->
          (state_after m objects scene action time).1 = SUSPICIOUS).
Proof.
  intros objects scene action time.
  split; [reflexivity|].
  split; [now rewrite check_as_steps|].
  split; [intros st pattern warning H; unfold pattern_step; now rewrite H|].
  split; [intros st pattern warning H; unfold pattern_step; now rewrite H|].
  split; [intros st condition message H; unfold unusual_step; now rewrite H|].
  split; [intros st condition message H; unfold unusual_step; now rewrite H|].
  split; [intros n m Hnm; now apply state_after_mono|].
  intros n m Hnm Hn.
  pose proof (state_after_mono objects scene action time n m Hnm) as Hle.
  rewrite Hn in Hle. unfold level_le in Hle.
  destruct (state_after m objects scene action time).1; simpl in Hle;
    [lia | lia | reflexivity].
Qed.

(** C2: a rule of [suspicious_patterns] matches exactly when every token of
    its trigger tuple is among the objects or is the action or the time; every
    match appends the highlight made of the rule's warning and sets the level
    to SUSPICIOUS, so that a rule's highlight is in the result exactly when
    the rule matches.  With objects person and bag, action running and time
    day the result is SUSPICIOUS with a highlight that contains "potential
    theft in progress". *)
Theorem catalog_rule_matching :
  forall (objects : list string) (scene action time : string),
    (forall pattern warning,
       In (pattern, warning) suspicious_patterns ->
       (pattern_matches objects action time pattern = true
        <-> (forall tok, In tok pattern ->
               In tok objects \/ tok = action \/ tok = time))
       /\ (In (highlight_of warning)
             (_check_suspicious_activity objects scene action time).2
           <-> (forall tok, In tok pattern ->
                  In tok objects \/ tok = action \/ tok = time))
       /\ (pattern_matches objects action time pattern = true ->
           (_check_suspicious_activity objects scene action time).1
           = SUSPICIOUS)
       /\ (forall st,
             pattern_matches objects action time pattern = true ->
             pattern_step objects action time st (pattern, warning)
             = (SUSPICIOUS, st.2 ++ [highlight_of warning]))
       /\ occurs_in warning (highlight_of warning))
    /\ (_check_suspicious_activity objects scene action time).2
       = map (fun rule => highlight_of rule.2)
           (matched_rules objects action time)
         ++ map (fun chk => highlight_of chk.2)
              (fired_checks scene action time)
    /\ (_check_suspicious_activity ["person"; "bag"] scene "running" "day").1
       = SUSPICIOUS
    /\ In (highlight_of "potential theft in progress")
         (_check_suspicious_activity ["person"; "bag"] scene "running" "day").2.
Proof.
  intros objects scene action time.
  split; [|split; [apply check_highlights|split]].
  - intros pattern warning Hin.
    split; [apply pattern_matches_spec|].
    split; [|split; [|split]].
    + rewrite <- pattern_matches_spec.
      simpl in Hin.
      destruct Hin as [H|[H|[H|[H|[]]]]]; inversion H; subst; clear H;
        split_rule_outcomes; decide_membership.
    + intros Hm. rewrite check_level.
      replace (existsb _ _) with true; [reflexivity|].
      symmetry. apply existsb_exists. exists (pattern, warning). now split.
    + intros st Hm. unfold pattern_step. now rewrite Hm.
    + apply occurs_in_highlight.
  - rewrite check_level. reflexivity.
  - rewrite check_highlights. apply in_or_app. left.
    apply str_in_spec. reflexivity.
Qed.

(** C3: the entry of [unusual_checks] with the message "Multiple people
    running - possible emergency" has a list display as its condition, which
    is true whatever the observation is: the highlight is in every result,
    and with no objects, action stationary and time day, where neither crowd
    nor running is among the tokens, it is the only highlight and the level is
    UNUSUAL. *)
Theorem crowd_check_always_fires :
  (forall (objects : list string) (scene action time : string),
     In (highlight_of "Multiple people running - possible emergency")
       (_check_suspicious_activity objects scene action time).2)
  /\ ~ In "crowd" ([] ++ ["stationary"; "day"])
  /\ ~ In "running" ([] ++ ["stationary"; "day"])
  /\ _check_suspicious_activity [] "unknown" "stationary" "day"
     = (UNUSUAL,
        [highlight_of "Multiple people running - possible emergency"]).
Proof.
  split; [|split; [|split]].
  - apply last_check_highlight.
  - rewrite <- str_in_spec. now vm_compute.
  - rewrite <- str_in_spec. now vm_compute.
  - reflexivity.
Qed.

(** C4: the entry of [unusual_checks] with the message "Person running at
    night" has the condition [["person", "running"] and time == "night"],
    whose value is that of [time == "night"]: the highlight is in the result
    exactly when the time is night, whatever the action is, and so it is with
    action stationary. *)
Theorem night_check_ignores_action :
  (forall (objects : list string) (scene action time : string),
     In (highlight_of "Person running at night")
       (_check_suspicious_activity objects scene action time).2
     <-> time = "night")
  /\ "stationary" <> "running"
  /\ _check_suspicious_activity [] "unknown" "stationary" "night"
     = (UNUSUAL,
        [highlight_of "Person running at night";
         highlight_of "Multiple people running - possible emergency"]).
Proof.
  split; [|split; [discriminate|reflexivity]].
  intros objects scene action time.
  split_rule_outcomes; decide_membership.
Qed.

(** C5: with no objects [_generate_summary] and [_create_description] return
    their empty-scene sentences, which name the scene; with the defaults
    (scene unknown, action stationary, time day) [_check_suspicious_activity]
    returns UNUSUAL and one highlight, that of the check whose condition is a
    list display. *)
Theorem empty_objects_results :
  (forall scene action : string,
     _generate_summary [] scene action
     = "Empty " +:+ scene +:+ " scene detected."
     /\ _create_description [] scene action
        = "The camera shows an empty " +:+ scene
            +:+ " with no significant activity."
     /\ occurs_in scene (_generate_summary [] scene action)
     /\ occurs_in scene (_create_description [] scene action))
  /\ _check_suspicious_activity [] "unknown" "stationary" "day"
     = (UNUSUAL,
        [highlight_of "Multiple people running - possible emergency"])
  /\ _check_suspicious_activity [] "unknown" "stationary" "day"
     <> (NORMAL, []).
Proof.
  split; [|split; [reflexivity|discriminate]].
  intros scene action.
  split; [reflexivity|split; [reflexivity|split]].
  - now exists "Empty ", " scene detected.".
  - now exists "The camera shows an empty ", " with no significant activity.".
Qed.

(** C7: when the scene is restricted the highlight "Unauthorized person in
    restricted area" is in the result and the level is at least UNUSUAL,
    whatever the objects (with or without a person), the action and the time
    are. *)
Theorem restricted_scene_is_flagged :
  forall (objects : list string) (action time : string),
    In (highlight_of "Unauthorized person in restricted area")
      (_check_suspicious_activity objects "restricted" action time).2
    /\ level_le UNUSUAL
         (_check_suspicious_activity objects "restricted" action time).1
    /\ (~ In "person" objects ->
        In (highlight_of "Unauthorized person in restricted area")
          (_check_suspicious_activity objects "restricted" action time).2).
Proof.
  intros objects action time.
  assert (In (highlight_of "Unauthorized person in restricted area")
            (_check_suspicious_activity objects "restricted" action time).2)
    as Hin.
  { rewrite check_highlights. apply in_or_app. right.
    unfold fired_checks, unusual_checks.
    cbn [List.filter fst snd py_and truthy].
    repeat match goal with
      | |- context [if ?b then _ else _] => destruct b eqn:?
      end; simpl; try tauto; discriminate. }
  split; [exact Hin|split; [|intros _; exact Hin]].
  rewrite check_level. destruct (existsb _ _); unfold level_le; simpl; lia.
Qed.

(** ** [format_output] on the results of the classifier *)

Lemma no_alert_line_not_in_head analysis :
  ~ In no_alert_line (report_head analysis).
Proof.
  unfold report_head, no_alert_line. simpl.
  intros [H|[H|[H|[H|[H|[H|[H|[]]]]]]]]; discriminate H.
Qed.

Lemma no_alert_line_not_in_alerts highlights :
  ~ In no_alert_line (alert_lines highlights).
Proof.
  unfold alert_lines, no_alert_line. simpl.
  intros [H|H]; [discriminate H|].
  apply in_map_iff in H. destruct H as [highlight [H _]]. discriminate H.
Qed.

Lemma output_lines_with_alerts analysis :
  highlights analysis <> [] ->
  output_lines analysis
  = report_head analysis ++ alert_lines (highlights analysis) ++ [report_foot]
  /\ ~ In no_alert_line (output_lines analysis).
Proof.
  intros Hne. unfold output_lines.
  destruct (highlights analysis) as [|h hs] eqn:Hhl; [congruence|].
  split; [reflexivity|].
  rewrite !in_app_iff. intros [H|[H|H]].
  - now apply no_alert_line_not_in_head in H.
  - now apply no_alert_line_not_in_alerts in H.
  - simpl in H. destruct H as [H|[]]. discriminate H.
Qed.

Lemma check_never_normal objects scene action time :
  (_check_suspicious_activity objects scene action time).2 <> []
  /\ (_check_suspicious_activity objects scene action time).1 <> NORMAL.
Proof.
  split.
  - pose proof (last_check_highlight objects scene action time) as H.
    intros Heq. rewrite Heq in H. destruct H.
  - rewrite check_level. now destruct (existsb _ _).
Qed.

(** * The methods on lists of strings

    On a list of strings for [objects] the methods on [pyval] raise nothing
    but what the replacement fields of scene and action raise, and return what
    the methods on [list string] return. *)

Section OnStrings.

Variable py_str : pyval -> result string.















End OnStrings.

Section CheckOnLists.

Variables (scene action time : pyval).

Lemma pattern_matches_on_list l pattern :
  Dyn.pattern_matches (PList l) action time pattern
  = Ok (forallb
          (fun item =>
             existsb (fun e => py_eq_str e item) (l ++ [action; time]))
          pattern).
Proof.
  induction pattern as [|item pattern IH]; [reflexivity|].
  cbn [Dyn.pattern_matches py_add_list py_contains mbind result_bind forallb].
  rewrite IH. now destruct (existsb _ _).
Qed.

Lemma patterns_loop_total l rules st :
  exists st', Dyn.patterns_loop (PList l) action time rules st = Ok st'.
Proof.
  revert st. induction rules as [|[pattern warning] rules IH]; intros st.
  - now exists st.
  - cbn [Dyn.patterns_loop]. rewrite pattern_matches_on_list.
    cbn [mbind result_bind]. apply IH.
Qed.

Lemma check_total patterns l :
  exists st,
    Dyn._check_suspicious_activity patterns (PList l) scene action time
    = Ok st.
Proof.
  unfold Dyn._check_suspicious_activity.
  destruct (patterns_loop_total l patterns (NORMAL, [])) as [st' ->].
  cbn [mbind result_bind]. eauto.
Qed.

Lemma dyn_check_never_normal patterns objects st :
  Dyn._check_suspicious_activity patterns objects scene action time = Ok st ->
  st.2 <> [] /\ st.1 <> NORMAL.
Proof.
  unfold Dyn._check_suspicious_activity.
  destruct (Dyn.patterns_loop _ _ _ _ _) as [st'|e];
    cbn [mbind result_bind]; [|discriminate].
  intros H.
  assert (st = fold_left unusual_step
                 (Dyn.unusual_checks scene action time) st') as ->
    by congruence.
  clear H. rewrite unusual_fold. unfold Dyn.unusual_checks.
  cbn [List.filter existsb fst snd py_and truthy].
  rewrite !orb_true_r. split.
  - repeat match goal with
      | |- context [if ?b then _ else _] => destruct b
      end; cbn [map snd]; intros H; apply app_eq_nil in H;
      destruct H as [_ H]; discriminate H.
  - cbn [fst]. now destruct st'.1.
Qed.

End CheckOnLists.




(** ** [analyze] *)

Lemma method_analyze_run py_str (vision_input : gmap string pyval) self :
  Method.analyze py_str vision_input self
  = (analysis_of py_str (self_common_combinations self)
       (self_suspicious_patterns self)
       (dict_get vision_input "detected_objects" (PList []))
       (dict_get vision_input "scene" (PStr "unknown"))
       (dict_get vision_input "action" (PStr "stationary"))
       (dict_get vision_input "time" (PStr "day")),
     self).
Proof.
  unfold Method.analyze, analysis_of, Method._generate_summary,
    Method._create_description, Method._analyze_context,
    Method._check_suspicious_activity, no_attr, read_attr,
    mbind, mret, method_bind, method_ret, result_bind.
  cbv beta iota.
  destruct (Dyn._generate_summary _ _ _ _); [|reflexivity].
  destruct (Dyn._create_description _ _ _ _ _); [|reflexivity].
  destruct (Dyn._analyze_context _ _ _); [|reflexivity].
  destruct (Dyn._check_suspicious_activity _ _ _ _ _) as [[lvl hl]|];
    reflexivity.
Qed.

Lemma analyze_unfold py_str (vision_input : gmap string pyval) :
  analyze py_str vision_input
  = analysis_of py_str common_combinations suspicious_patterns
      (dict_get vision_input "detected_objects" (PList []))
      (dict_get vision_input "scene" (PStr "unknown"))
      (dict_get vision_input "action" (PStr "stationary"))
      (dict_get vision_input "time" (PStr "day")).
Proof. unfold analyze. now rewrite method_analyze_run. Qed.

Lemma analyze_reads_four_keys py_str (vi1 vi2 : gmap string pyval) :
  vi1 !! "detected_objects" = vi2 !! "detected_objects" ->
  vi1 !! "scene" = vi2 !! "scene" ->
  vi1 !! "action" = vi2 !! "action" ->
  vi1 !! "time" = vi2 !! "time" ->
  analyze py_str vi1 = analyze py_str vi2.
Proof.
  intros Ho Hs Ha Ht. rewrite !analyze_unfold. unfold dict_get.
  now rewrite Ho, Hs, Ha, Ht.
Qed.

Lemma analyze_never_normal py_str (vi : gmap string pyval) analysis :
  analyze py_str vi = Ok analysis ->
  highlights analysis <> [] /\ suspicion_level analysis <> NORMAL.
Proof.
  rewrite analyze_unfold. unfold analysis_of.
  destruct (Dyn._generate_summary _ _ _ _); cbn [mbind result_bind];
    [|discriminate].
  destruct (Dyn._create_description _ _ _ _ _); cbn [mbind result_bind];
    [|discriminate].
  destruct (Dyn._analyze_context _ _ _); cbn [mbind result_bind];
    [|discriminate].
  destruct (Dyn._check_suspicious_activity _ _ _ _ _) as [[lvl hl]|] eqn:Hchk;
    cbn [mbind result_bind]; [|discriminate].
  intros [= <-]. apply dyn_check_never_normal in Hchk. exact Hchk.
Qed.

(** C10: every result of [_check_suspicious_activity] has a highlight and a
    level of at least UNUSUAL, and so has every analysis [analyze] returns;
    for such an analysis [format_output] joins the lines of the branch with
    the alerts, and the line "No unusual activity detected" is not among
    them. *)
Theorem classifier_always_alerts :
  forall (objects : list string) (scene action time : string),
    (_check_suspicious_activity objects scene action time).2 <> []
    /\ (_check_suspicious_activity objects scene action time).1 <> NORMAL
    /\ level_le UNUSUAL
         (_check_suspicious_activity objects scene action time).1
    /\ (forall summary description context,
          ~ In no_alert_line
              (output_lines
                 (mkVisionAnalysis summary description context
                    (_check_suspicious_activity objects scene action time).1
                    (_check_suspicious_activity objects scene action time).2)))
    /\ (forall py_str (vision_input : gmap string pyval) analysis,
          analyze py_str vision_input = Ok analysis ->
          highlights analysis <> []
          /\ suspicion_level analysis <> NORMAL
          /\ format_output analysis
             = join nl (report_head analysis
                        ++ alert_lines (highlights analysis)
                        ++ [report_foot])
          /\ ~ In no_alert_line (output_lines analysis)).
Proof.
  intros objects scene action time.
  destruct (check_never_normal objects scene action time) as [Hhl Hlvl].
  split; [exact Hhl|split; [exact Hlvl|split; [|split]]].
  - unfold level_le.
    destruct (_check_suspicious_activity objects scene action time).1;
      simpl; [congruence|lia|lia].
  - intros summary description context.
    now apply output_lines_with_alerts.
  - intros py_str vision_input analysis Han.
    apply analyze_never_normal in Han. destruct Han as [Hne Hnn].
    destruct (output_lines_with_alerts analysis Hne) as [Hlines Hnot].
    repeat split; try assumption.
    unfold format_output. now rewrite Hlines.
Qed.

(** ** The person clause of [_create_description] *)

Lemma combinations_hold_person combo activity :
  In (combo, activity) common_combinations -> str_in "person" combo = true.
Proof.
  simpl. intros [H|[H|[H|[H|[H|[]]]]]]; inversion H; reflexivity.
Qed.

Lemma combinations_loop_match obj combo activity person_desc :
  obj <> "person" ->
  In (combo, activity) common_combinations ->
  In obj combo ->
  combinations_loop common_combinations obj person_desc
  = "A person is " +:+ activity.
Proof.
  intros Hobj Hrule Hin. simpl in Hrule.
  destruct Hrule as [H|[H|[H|[H|[H|[]]]]]]; inversion H; subst; clear H;
    simpl in Hin; destruct Hin as [Hin|[Hin|[]]]; subst;
    solve [congruence | reflexivity].
Qed.

Lemma combinations_loop_no_match combos obj person_desc :
  (forall combo activity, In (combo, activity) combos -> ~ In obj combo) ->
  combinations_loop combos obj person_desc = person_desc.
Proof.
  induction combos as [|[combo activity] combos IH]; intros Hno;
    [reflexivity|].
  simpl. replace (str_in obj combo) with false.
  - rewrite andb_false_r. apply IH. intros c a Hin. apply (Hno c a).
    now right.
  - symmetry. apply not_true_is_false. rewrite str_in_spec.
    apply (Hno combo activity). now left.
Qed.

Lemma objects_loop_app l1 l2 person_desc :
  objects_loop (l1 ++ l2) person_desc
  = objects_loop l2 (objects_loop l1 person_desc).
Proof.
  revert person_desc. induction l1 as [|obj l1 IH]; intros pd;
    [reflexivity|].
  simpl. apply IH.
Qed.

Lemma objects_loop_no_match objects person_desc :
  (forall obj combo activity,
     In obj objects -> obj <> "person" ->
     In (combo, activity) common_combinations -> ~ In obj combo) ->
  objects_loop objects person_desc = person_desc.
Proof.
  revert person_desc. induction objects as [|obj objects IH]; intros pd Hno;
    [reflexivity|].
  cbn [objects_loop]. rewrite IH.
  - destruct (String.eqb_spec obj "person") as [->|Hne]; [reflexivity|].
    cbn [negb]. apply combinations_loop_no_match.
    intros combo activity Hrule.
    apply (Hno obj combo activity); [now left|exact Hne|exact Hrule].
  - intros o c a Hin. apply Hno. now right.
Qed.

(** C6, as the claim states it, fails: with objects person, bicycle and dog
    the last matched rule of the catalog is the one of the bicycle, and the
    person clause holds the label of the dog. *)
Lemma last_catalog_match_does_not_win :
  In "person" ["person"; "bicycle"; "dog"]
  /\ List.filter (combination_matched ["person"; "bicycle"; "dog"])
       common_combinations
     = [ (["person"; "dog"], "walking a dog");
         (["person"; "bicycle"], "cycling or with a bicycle") ]
  /\ last_match_person_desc ["person"; "bicycle"; "dog"] "walking"
     = "A person is cycling or with a bicycle"
  /\ person_desc ["person"; "bicycle"; "dog"] "walking"
     = "A person is walking a dog"
  /\ person_desc ["person"; "bicycle"; "dog"] "walking"
     <> last_match_person_desc ["person"; "bicycle"; "dog"] "walking"
  /\ _create_description ["person"; "bicycle"; "dog"] "street" "walking"
     = "A person is walking a dog. Also visible: bicycle, dog on a street.".
Proof.
  split; [now left|].
  split; [reflexivity|].
  split; [reflexivity|].
  split; [reflexivity|].
  split; [discriminate|reflexivity].
Qed.

(** C6, amended: the person clause holds the label of the combination rule
    of the last object, in the order of detection, that is in a combination
    rule: a later object overwrites what an earlier one has set, and when no
    object is in a rule the clause keeps the action.  With objects person and
    dog, action walking and scene street the description has the label
    "walking a dog" and ends with "on a street.". *)
Theorem person_clause_last_object_wins :
  (forall (earlier later : list string) (obj action : string)
          (combo : list string) (activity : string),
     obj <> "person" ->
     In (combo, activity) common_combinations ->
     In obj combo ->
     (forall o c a,
        In o later -> o <> "person" ->
        In (c, a) common_combinations -> ~ In o c) ->
     person_desc (earlier ++ obj :: later) action
     = "A person is " +:+ activity)
  /\ (forall (objects : list string) (action : string),
        (forall o c a,
           In o objects -> o <> "person" ->
           In (c, a) common_combinations -> ~ In o c) ->
        person_desc objects action = "A person is " +:+ action)
  /\ _create_description ["person"; "dog"] "street" "walking"
     = "A person is walking a dog. A dog is also visible on a street.".
Proof.
  split; [|split; [|reflexivity]].
  - intros earlier later obj action combo activity Hobj Hrule Hin Hlater.
    unfold person_desc. rewrite objects_loop_app. cbn [objects_loop].
    rewrite (objects_loop_no_match later) by exact Hlater.
    destruct (String.eqb_spec obj "person") as [->|_]; [congruence|].
    cbn [negb]. now apply combinations_loop_match with (combo := combo).
  - intros objects action Hno. unfold person_desc.
    now apply objects_loop_no_match.
Qed.

Lemma person_clause_last_object_wins_witness :
  person_desc (["person"; "bicycle"] ++ "dog" :: ["cat"]) "walking"
  = "A person is " +:+ "walking a dog".
Proof.
  apply (proj1 person_clause_last_object_wins
           ["person"; "bicycle"] ["cat"] "dog" "walking"
           ["person"; "dog"] "walking a dog").
  - discriminate.
  - simpl. tauto.
  - simpl. tauto.
  - intros o c a Ho _ Hrule Hin. simpl in Ho. destruct Ho as [<-|[]].
    simpl in Hrule.
    destruct Hrule as [H|[H|[H|[H|[H|[]]]]]]; inversion H; subst;
      simpl in Hin; destruct Hin as [Hin|[Hin|[]]]; discriminate Hin.
Defined.

(** ** The theorems at concrete observations *)

Lemma suspicion_level_never_lowered_witness :
  level_le
    (state_after 1 ["person"; "bag"] "store" "running" "night").1
    (state_after 6 ["person"; "bag"] "store" "running" "night").1.
Proof.
  apply (suspicion_level_never_lowered
           ["person"; "bag"] "store" "running" "night").
  lia.
Defined.

Lemma catalog_rule_matching_witness :
  In (highlight_of "possible intrusion attempt")
    (_check_suspicious_activity ["person"; "window"] "house" "stationary"
       "night").2
  <-> (forall tok,
         In tok ["person"; "window"; "night"] ->
         In tok ["person"; "window"] \/ tok = "stationary" \/ tok = "night").
Proof.
  apply (proj1 (catalog_rule_matching
                  ["person"; "window"] "house" "stationary" "night")
           ["person"; "window"; "night"] "possible intrusion attempt").
  simpl. tauto.
Defined.

Lemma restricted_scene_is_flagged_witness :
  In (highlight_of "Unauthorized person in restricted area")
    (_check_suspicious_activity ["dog"] "restricted" "stationary" "day").2.
Proof.
  apply (restricted_scene_is_flagged ["dog"] "stationary" "day").
  simpl. intros [H|[]]. discriminate H.
Defined.

Lemma classifier_always_alerts_witness :
  highlights
    (mkVisionAnalysis "Empty unknown scene detected."
       "The camera shows an empty unknown with no significant activity."
       "Standard scene with typical elements." UNUSUAL
       [highlight_of "Multiple people running - possible emergency"])
  <> [].
Proof.
  apply (proj2 (proj2 (proj2 (proj2
           (classifier_always_alerts [] "unknown" "stationary" "day"))))
           (fun _ => Raise ValueError) ∅).
  reflexivity.
Defined.

(** * Further properties of the methods *)

(** ** [_check_suspicious_activity] *)

Lemma pattern_matches_incl objects objects' action time pattern :
  (forall x, In x objects -> In x objects') ->
  pattern_matches objects action time pattern = true ->
  pattern_matches objects' action time pattern = true.
Proof.
  intros Hincl. rewrite !pattern_matches_spec. intros H tok Htok.
  destruct (H tok Htok) as [Hin|Heq]; [left; now apply Hincl|now right].
Qed.

Lemma pattern_matches_same_set objects objects' action time pattern :
  (forall x, In x objects <-> In x objects') ->
  pattern_matches objects action time pattern
  = pattern_matches objects' action time pattern.
Proof.
  intros Hsame.
  destruct (pattern_matches objects action time pattern) eqn:H1;
    destruct (pattern_matches objects' action time pattern) eqn:H2;
    try reflexivity.
  - apply (pattern_matches_incl objects objects') in H1;
      [congruence|apply Hsame].
  - apply (pattern_matches_incl objects' objects) in H2;
      [congruence|apply Hsame].
Qed.

Lemma some_rule_matches_spec objects action time :
  existsb (fun rule => pattern_matches objects action time rule.1)
    suspicious_patterns = true
  <-> exists pattern warning,
        In (pattern, warning) suspicious_patterns
        /\ forall tok, In tok pattern ->
             In tok objects \/ tok = action \/ tok = time.
Proof.
  rewrite existsb_exists. split.
  - intros [[pattern warning] [Hin Hm]]. exists pattern, warning.
    split; [exact Hin|]. now apply pattern_matches_spec.
  - intros [pattern [warning [Hin Hm]]]. exists (pattern, warning).
    split; [exact Hin|]. now apply pattern_matches_spec.
Qed.

(** X1: the level is SUSPICIOUS exactly when the tokens of some rule of
    [suspicious_patterns] are all among the objects, the action and the time,
    and UNUSUAL in every other case: no entry of [unusual_checks] leads to
    SUSPICIOUS. *)
Theorem suspicious_exactly_by_catalog :
  forall (objects : list string) (scene action time : string),
    ((_check_suspicious_activity objects scene action time).1 = SUSPICIOUS
     <-> exists pattern warning,
           In (pattern, warning) suspicious_patterns
           /\ forall tok, In tok pattern ->
                In tok objects \/ tok = action \/ tok = time)
    /\ ((_check_suspicious_activity objects scene action time).1 = UNUSUAL
        <-> ~ exists pattern warning,
                In (pattern, warning) suspicious_patterns
                /\ forall tok, In tok pattern ->
                     In tok objects \/ tok = action \/ tok = time).
Proof.
  intros objects scene action time.
  rewrite check_level, <- some_rule_matches_spec.
  destruct (existsb _ _); split; split; intros H;
    try reflexivity; congruence.
Qed.

(** X2: the scene has no part in the level: it is not among the tokens the
    catalog is matched against, and the checks that read it can only give
    UNUSUAL, which the last check gives anyway. *)
Theorem level_independent_of_scene :
  forall (objects : list string) (scene scene' action time : string),
    (_check_suspicious_activity objects scene action time).1
    = (_check_suspicious_activity objects scene' action time).1.
Proof.
  intros objects scene scene' action time. now rewrite !check_level.
Qed.

(** X3: detecting more objects never takes an alert away: when every object
    of one observation is among those of another, with the same scene, action
    and time, the level of the first is at most that of the second and every
    highlight of the first is a highlight of the second. *)
Theorem more_objects_keep_alerts :
  forall (objects objects' : list string) (scene action time : string),
    (forall x, In x objects -> In x objects') ->
    level_le (_check_suspicious_activity objects scene action time).1
             (_check_suspicious_activity objects' scene action time).1
    /\ (forall h,
          In h (_check_suspicious_activity objects scene action time).2 ->
          In h (_check_suspicious_activity objects' scene action time).2).
Proof.
  intros objects objects' scene action time Hincl. split.
  - rewrite !check_level.
    destruct (existsb _ suspicious_patterns) eqn:H1.
    + apply existsb_exists in H1. destruct H1 as [rule [Hin Hm]].
      apply (pattern_matches_incl _ objects') in Hm; [|exact Hincl].
      replace (existsb _ suspicious_patterns) with true;
        [apply level_le_refl|].
      symmetry. apply existsb_exists. now exists rule.
    + destruct (existsb
                  (fun rule => pattern_matches objects' action time rule.1)
                  suspicious_patterns);
        unfold level_le; cbn [level_rank]; lia.
  - intros h. rewrite !check_highlights, !in_app_iff.
    intros [H|H]; [left|now right].
    unfold matched_rules in *. apply in_map_iff in H.
    destruct H as [rule [<- Hrule]]. apply filter_In in Hrule.
    destruct Hrule as [Hin Hm]. apply in_map_iff. exists rule.
    split; [reflexivity|]. apply filter_In.
    split; [exact Hin|]. now apply (pattern_matches_incl objects).
Qed.

Lemma more_objects_keep_alerts_witness :
  level_le
    (_check_suspicious_activity ["person"] "store" "running" "day").1
    (_check_suspicious_activity ["bag"; "person"] "store" "running" "day").1.
Proof.
  apply (more_objects_keep_alerts ["person"] ["bag"; "person"]).
  simpl. tauto.
Defined.

Lemma patterns_fold_same_set objects objects' action time rules st :
  (forall x, In x objects <-> In x objects') ->
  fold_left (pattern_step objects action time) rules st
  = fold_left (pattern_step objects' action time) rules st.
Proof.
  intros Hsame. revert st.
  induction rules as [|[pattern warning] rules IH]; intros st; [reflexivity|].
  simpl. rewrite (pattern_matches_same_set objects objects') by exact Hsame.
  apply IH.
Qed.

(** X4: the result depends on which objects are detected, not on their order
    or on how often one is listed: two lists with the same members give the
    same level and the same highlights. *)
Theorem check_depends_on_members_only :
  forall (objects objects' : list string) (scene action time : string),
    (forall x, In x objects <-> In x objects') ->
    _check_suspicious_activity objects scene action time
    = _check_suspicious_activity objects' scene action time.
Proof.
  intros objects objects' scene action time Hsame.
  unfold _check_suspicious_activity.
  now rewrite (patterns_fold_same_set objects objects').
Qed.

Lemma check_depends_on_members_only_witness :
  _check_suspicious_activity ["bag"; "person"; "bag"] "store" "running" "day"
  = _check_suspicious_activity ["person"; "bag"] "store" "running" "day".
Proof.
  apply check_depends_on_members_only.
  intros x. simpl. tauto.
Defined.

(** X5: the highlight "Unusual climbing activity" is in the result exactly
    when the action is climbing and the scene is not gym, and the highlight
    "Unauthorized person in restricted area" exactly when the scene is
    restricted. *)
Theorem climbing_and_restricted_checks :
  forall (objects : list string) (scene action time : string),
    (In (highlight_of "Unusual climbing activity")
       (_check_suspicious_activity objects scene action time).2
     <-> action = "climbing" /\ scene <> "gym")
    /\ (In (highlight_of "Unauthorized person in restricted area")
          (_check_suspicious_activity objects scene action time).2
        <-> scene = "restricted").
Proof.
  intros objects scene action time. split.
  - split_rule_outcomes; decide_membership.
  - split_rule_outcomes; decide_membership.
Qed.

(** X6: a result has between one and eight highlights, each made of the
    prefix and the text of a rule or of a check, and none of them twice. *)
Theorem highlights_bounded_and_distinct :
  forall (objects : list string) (scene action time : string),
    1 <= length (_check_suspicious_activity objects scene action time).2 <= 8
    /\ NoDup (_check_suspicious_activity objects scene action time).2
    /\ (forall h,
          In h (_check_suspicious_activity objects scene action time).2 ->
          exists entry,
            h = highlight_of entry
            /\ (In entry (map snd suspicious_patterns)
                \/ In entry (map snd (unusual_checks scene action time)))).
Proof.
  intros objects scene action time. split; [|split].
  - split_rule_outcomes; simpl; lia.
  - split_rule_outcomes; apply (bool_decide_unpack _); vm_compute; exact I.
  - intros h. rewrite check_highlights, in_app_iff.
    unfold matched_rules, fired_checks.
    intros [H|H]; apply in_map_iff in H; destruct H as [entry [<- Hin]];
      apply filter_In in Hin; destruct Hin as [Hin _];
      exists entry.2; (split; [reflexivity|]).
    + left. now apply in_map.
    + right. now apply in_map.
Qed.

(** ** [_create_description] and [_generate_summary] *)

Lemma other_objects_without_person objects :
  ~ In "person" objects -> other_objects objects = objects.
Proof.
  unfold other_objects. induction objects as [|obj objects IH]; intros Hno;
    [reflexivity|].
  simpl. destruct (String.eqb_spec obj "person") as [->|_].
  - exfalso. apply Hno. now left.
  - simpl. f_equal. apply IH. intros Hin. apply Hno. now right.
Qed.

Lemma other_objects_of_persons objects :
  (forall obj, In obj objects -> obj = "person") -> other_objects objects = [].
Proof.
  unfold other_objects. induction objects as [|obj objects IH]; intros Hall;
    [reflexivity|].
  simpl. rewrite (Hall obj) by now left. simpl.
  apply IH. intros o Ho. apply Hall. now right.
Qed.

Lemma objects_loop_other_objects objects person_desc :
  objects_loop objects person_desc
  = objects_loop (other_objects objects) person_desc.
Proof.
  unfold other_objects. revert person_desc.
  induction objects as [|obj objects IH]; intros pd; [reflexivity|].
  cbn [objects_loop List.filter].
  destruct (String.eqb_spec obj "person") as [->|Hne]; cbn [negb].
  - apply IH.
  - cbn [objects_loop]. destruct (String.eqb_spec obj "person"); [congruence|].
    cbn [negb]. apply IH.
Qed.

Lemma objects_loop_forgets objects person_desc person_desc' :
  (exists obj combo activity,
     In obj objects /\ obj <> "person"
     /\ In (combo, activity) common_combinations /\ In obj combo) ->
  objects_loop objects person_desc = objects_loop objects person_desc'.
Proof.
  revert person_desc person_desc'.
  induction objects as [|o objects IH]; intros pd pd' Hex.
  - destruct Hex as [obj [_ [_ [[] _]]]].
  - destruct Hex as [obj [combo [activity [[<-|Hin] [Hne [Hrule Hobj]]]]]].
    + cbn [objects_loop].
      destruct (String.eqb_spec o "person"); [congruence|]. cbn [negb].
      now rewrite !(combinations_loop_match o combo activity).
    + cbn [objects_loop]. apply IH. now exists obj, combo, activity.
Qed.

(** X7: without a person among the objects the description has no person
    clause and does not read the action: one object gives "A ... is also
    visible", two or more give "Also visible:" and the objects in the order of
    detection, joined by commas, each followed by "on a" and the scene. *)
Theorem description_without_person :
  forall (objects : list string) (scene action : string),
    ~ In "person" objects ->
    (forall obj, objects = [obj] ->
       _create_description objects scene action
       = ("A " +:+ obj +:+ " is also visible")
           +:+ " on a " +:+ scene +:+ ".")
    /\ (2 <= length objects ->
        _create_description objects scene action
        = ("Also visible: " +:+ join ", " objects)
            +:+ " on a " +:+ scene +:+ ".").
Proof.
  intros objects scene action Hno.
  assert (str_in "person" objects = false) as Hfalse.
  { apply not_true_is_false. now rewrite str_in_spec. }
  split.
  - intros obj ->. unfold _create_description, desc_parts.
    rewrite Hfalse, other_objects_without_person by exact Hno.
    reflexivity.
  - intros Hlen. unfold _create_description, desc_parts.
    rewrite Hfalse, other_objects_without_person by exact Hno.
    destruct objects as [|o1 [|o2 rest]]; simpl in Hlen; try lia.
    reflexivity.
Qed.

Lemma description_without_person_witness :
  _create_description ["car"; "smoke"] "parking lot" "standing"
  = ("Also visible: " +:+ join ", " ["car"; "smoke"])
      +:+ " on a " +:+ "parking lot" +:+ ".".
Proof.
  apply (description_without_person ["car"; "smoke"] "parking lot" "standing").
  - simpl. intros [H|[H|[]]]; discriminate H.
  - simpl. lia.
Defined.

(** X8: when the objects are one or more entries "person" and nothing else,
    the description is the person clause with the action, followed by "on a"
    and the scene. *)
Theorem description_of_persons_only :
  forall (objects : list string) (scene action : string),
    objects <> [] ->
    (forall obj, In obj objects -> obj = "person") ->
    _create_description objects scene action
    = ("A person is " +:+ action) +:+ " on a " +:+ scene +:+ ".".
Proof.
  intros objects scene action Hne Hall.
  unfold _create_description, desc_parts, person_desc.
  rewrite objects_loop_other_objects, other_objects_of_persons by exact Hall.
  destruct objects as [|obj objects]; [congruence|].
  rewrite (Hall obj) by now left. reflexivity.
Qed.

Lemma description_of_persons_only_witness :
  _create_description ["person"; "person"] "street" "waiting"
  = ("A person is " +:+ "waiting") +:+ " on a " +:+ "street" +:+ ".".
Proof.
  apply (description_of_persons_only ["person"; "person"] "street" "waiting").
  - discriminate.
  - simpl. intros obj [<-|[<-|[]]]; reflexivity.
Defined.

(** X9: the person clause is the same wherever and however often "person"
    is listed: it is the clause of the other objects alone. *)
Theorem person_clause_of_other_objects :
  forall (objects : list string) (action : string),
    person_desc objects action = person_desc (other_objects objects) action
    /\ ~ In "person" (other_objects objects).
Proof.
  intros objects action. split.
  - unfold person_desc. apply objects_loop_other_objects.
  - unfold other_objects. rewrite filter_In. intros [_ H]. discriminate H.
Qed.

(** X10: the action is in the description only through the person clause,
    and a matching combination replaces it: when no person is detected, or
    when some other object is in a combination rule, the description is the
    same for every action. *)
Theorem action_dropped_from_description :
  forall (objects : list string) (scene action action' : string),
    (~ In "person" objects
     \/ exists obj combo activity,
          In obj objects /\ obj <> "person"
          /\ In (combo, activity) common_combinations /\ In obj combo) ->
    _create_description objects scene action
    = _create_description objects scene action'.
Proof.
  intros objects scene action action' Hcase.
  unfold _create_description, desc_parts, person_desc.
  destruct Hcase as [Hno|Hex].
  - replace (str_in "person" objects) with false; [reflexivity|].
    symmetry. apply not_true_is_false. now rewrite str_in_spec.
  - now rewrite (objects_loop_forgets objects _ ("A person is " +:+ action')).
Qed.

Lemma action_dropped_from_description_witness :
  _create_description ["person"; "phone"] "store" "standing"
  = _create_description ["person"; "phone"] "store" "running".
Proof.
  apply (action_dropped_from_description ["person"; "phone"]).
  right. exists "phone", ["person"; "phone"], "using a mobile device".
  split; [simpl; tauto|]. split; [discriminate|].
  split; simpl; tauto.
Defined.

Lemma combinations_loop_keeps_head combos obj person_desc rest :
  person_desc = String "A" rest ->
  exists rest', combinations_loop combos obj person_desc = String "A" rest'.
Proof.
  intros ->. induction combos as [|[combo activity] combos IH];
    [now exists rest|].
  simpl. destruct (_ && _); [|exact IH]. eexists. reflexivity.
Qed.

Lemma objects_loop_keeps_head objects person_desc rest :
  person_desc = String "A" rest ->
  exists rest', objects_loop objects person_desc = String "A" rest'.
Proof.
  revert person_desc rest.
  induction objects as [|obj objects IH]; intros pd rest Hpd;
    [now exists rest|].
  cbn [objects_loop]. destruct (negb _).
  - destruct (combinations_loop_keeps_head common_combinations obj pd rest Hpd)
      as [rest' Hrest'].
    now apply (IH _ rest').
  - now apply (IH _ rest).
Qed.

(** X11: the empty-scene sentences are returned for no objects only: with
    one object or more the summary starts with "A " and the subject, and the
    description starts with the letter A (of "A person is", "A ... is also
    visible" or "Also visible:"), where the empty-scene sentences start with
    "Empty" and "The". *)
Theorem empty_sentences_only_without_objects :
  forall (objects : list string) (scene action : string),
    (_generate_summary objects scene action
     = "Empty " +:+ scene +:+ " scene detected."
     <-> objects = [])
    /\ (_create_description objects scene action
        = "The camera shows an empty " +:+ scene
            +:+ " with no significant activity."
        <-> objects = [])
    /\ (objects <> [] ->
        exists rest, _create_description objects scene action = String "A" rest).
Proof.
  intros objects scene action.
  assert (objects <> [] ->
          exists rest,
            _create_description objects scene action = String "A" rest)
    as Hhead.
  { intros Hne. destruct objects as [|obj objects]; [congruence|].
    unfold _create_description, desc_parts, person_desc.
    set (all := obj :: objects).
    destruct (str_in "person" all) eqn:Hperson.
    - destruct (objects_loop_keeps_head all ("A person is " +:+ action)
                  (" person is " +:+ action) eq_refl) as [rest ->].
      destruct (other_objects all) as [|o [|o' others]];
        eexists; reflexivity.
    - rewrite other_objects_without_person.
      + subst all. destruct objects; eexists; reflexivity.
      + rewrite <- str_in_spec. congruence. }
  split; [|split; [|exact Hhead]].
  - destruct objects; split; intros H; try reflexivity; discriminate H.
  - split; [|intros ->; reflexivity].
    intros H. destruct objects as [|obj objects]; [reflexivity|].
    destruct (Hhead ltac:(discriminate)) as [rest Hrest].
    rewrite Hrest in H. discriminate H.
Qed.

(** ** [_analyze_context] *)

Lemma scene_contexts_nil scene :
  scene_contexts scene = []
  <-> ~ In scene ["street"; "sidewalk"; "road"; "park"; "garden"; "field";
                  "home"; "house"; "apartment"; "store"; "shop"; "mall"].
Proof.
  rewrite <- str_in_spec. unfold scene_contexts. cbn [str_in].
  repeat match goal with
    | |- context [String.eqb scene ?x] =>
        destruct (String.eqb_spec scene x) as [->|_]
    end; vm_compute; split; intros H; try discriminate H; try reflexivity;
    try (exfalso; now apply H); intros H'; discriminate H'.
Qed.

Lemma action_contexts_nil action :
  action_contexts action = []
  <-> ~ In action ["running"; "jogging"; "sitting"; "standing"; "waiting";
                   "walking"; "strolling"].
Proof.
  rewrite <- str_in_spec. unfold action_contexts. cbn [str_in].
  repeat match goal with
    | |- context [String.eqb action ?x] =>
        destruct (String.eqb_spec action x) as [->|_]
    end; vm_compute; split; intros H; try discriminate H; try reflexivity;
    try (exfalso; now apply H); intros H'; discriminate H'.
Qed.

Lemma object_contexts_nil objects :
  object_contexts objects = []
  <-> ~ (In "person" objects /\ (In "dog" objects \/ In "bicycle" objects)).
Proof.
  rewrite <- !str_in_spec. unfold object_contexts.
  destruct (str_in "person" objects), (str_in "dog" objects),
    (str_in "bicycle" objects); cbn [andb]; split; intros H;
    try discriminate H; try reflexivity;
    try (exfalso; apply H; tauto); intuition discriminate.
Qed.

Lemma context_standard_iff_no_clause objects scene action :
  _analyze_context objects scene action
  = "Standard scene with typical elements."
  <-> scene_contexts scene = [] /\ action_contexts action = []
      /\ object_contexts objects = [].
Proof.
  unfold _analyze_context, scene_contexts, action_contexts, object_contexts.
  repeat match goal with
    | |- context [if ?b then _ else _] => destruct b
    end; cbn [app]; split; intros H;
    try discriminate H; try reflexivity; try tauto;
    destruct H as [H1 [H2 H3]];
    first [discriminate H1 | discriminate H2 | discriminate H3].
Qed.

(** X12: the context is "Standard scene with typical elements." exactly when
    the scene is none of the twelve scenes and the action none of the seven
    actions that have a clause, and the objects do not hold a person together
    with a dog or a bicycle. *)
Theorem standard_context_exactly_without_clause :
  forall (objects : list string) (scene action : string),
    _analyze_context objects scene action
    = "Standard scene with typical elements."
    <-> (~ In scene ["street"; "sidewalk"; "road"; "park"; "garden"; "field";
                     "home"; "house"; "apartment"; "store"; "shop"; "mall"]
         /\ ~ In action ["running"; "jogging"; "sitting"; "standing";
                         "waiting"; "walking"; "strolling"]
         /\ ~ (In "person" objects
               /\ (In "dog" objects \/ In "bicycle" objects))).
Proof.
  intros objects scene action.
  rewrite context_standard_iff_no_clause, scene_contexts_nil,
    action_contexts_nil, object_contexts_nil.
  reflexivity.
Qed.

Lemma object_contexts_by_members objects objects' :
  (In "person" objects <-> In "person" objects') ->
  (In "dog" objects <-> In "dog" objects') ->
  (In "bicycle" objects <-> In "bicycle" objects') ->
  object_contexts objects = object_contexts objects'.
Proof.
  rewrite <- !str_in_spec. unfold object_contexts.
  destruct (str_in "person" objects), (str_in "dog" objects),
    (str_in "bicycle" objects), (str_in "person" objects'),
    (str_in "dog" objects'), (str_in "bicycle" objects');
    intros [H1 H1'] [H2 H2'] [H3 H3']; try reflexivity;
    first [ discriminate (H1 eq_refl) | discriminate (H1' eq_refl)
          | discriminate (H2 eq_refl) | discriminate (H2' eq_refl)
          | discriminate (H3 eq_refl) | discriminate (H3' eq_refl) ].
Qed.

(** X13: with a person and a dog among the objects the clause of the dog is
    given and that of the bicycle is not, whether a bicycle is detected or
    not: the context is that of a person and a dog alone. *)
Theorem dog_clause_masks_bicycle_clause :
  forall (objects : list string) (scene action : string),
    In "person" objects ->
    In "dog" objects ->
    _analyze_context objects scene action
    = _analyze_context ["person"; "dog"] scene action.
Proof.
  intros objects scene action Hperson Hdog.
  unfold _analyze_context. f_equal. f_equal. f_equal.
  unfold object_contexts.
  apply str_in_spec in Hperson. apply str_in_spec in Hdog.
  now rewrite Hperson, Hdog.
Qed.

Lemma dog_clause_masks_bicycle_clause_witness :
  _analyze_context ["person"; "dog"; "bicycle"] "street" "walking"
  = _analyze_context ["person"; "dog"] "street" "walking".
Proof.
  apply (dog_clause_masks_bicycle_clause ["person"; "dog"; "bicycle"]).
  - simpl. tauto.
  - simpl. tauto.
Defined.

(** X14: of the objects the context reads only whether person, dog and
    bicycle are among them: two lists that agree on these three give the same
    context, whatever else they hold and in whatever order. *)
Theorem context_reads_three_objects :
  forall (objects objects' : list string) (scene action : string),
    (In "person" objects <-> In "person" objects') ->
    (In "dog" objects <-> In "dog" objects') ->
    (In "bicycle" objects <-> In "bicycle" objects') ->
    _analyze_context objects scene action
    = _analyze_context objects' scene action.
Proof.
  intros objects objects' scene action Hp Hd Hb.
  unfold _analyze_context.
  now rewrite (object_contexts_by_members objects objects').
Qed.

Lemma context_reads_three_objects_witness :
  _analyze_context ["car"; "bicycle"; "person"] "road" "waiting"
  = _analyze_context ["person"; "bicycle"] "road" "waiting".
Proof.
  apply (context_reads_three_objects ["car"; "bicycle"; "person"]
           ["person"; "bicycle"]).
  - simpl. tauto.
  - simpl. split; intros H; exfalso;
      repeat destruct H as [H|H]; try discriminate H; exact H.
  - simpl. tauto.
Defined.

(** ** [analyze] on any value of [detected_objects] *)

Section AnyObjects.

Variable py_str : pyval -> result string.
Variables (scene action time : pyval).

Lemma utf8_chars_nonempty c s : utf8_chars (String c s) <> [].
Proof.
  cbn [utf8_chars]. destruct s as [|c' s']; [discriminate|].
  destruct (is_continuation c'); [|discriminate].
  destruct (utf8_chars (String c' s')); discriminate.
Qed.

Lemma summary_total_on_list l :
  formats py_str scene -> formats py_str action ->
  (forall v, In v l -> formats py_str v) ->
  exists s, Dyn._generate_summary py_str (PList l) scene action = Ok s.
Proof.
  intros [scene_text Hscene] [action_text Haction] Hitems.
  unfold Dyn._generate_summary.
  destruct l as [|x l]; cbn [truthy negb py_getitem0 mbind result_bind].
  - rewrite Hscene. eexists. reflexivity.
  - destruct (Hitems x) as [x_text Hx]; [now left|].
    rewrite Hx. cbn [mbind result_bind]. rewrite Haction.
    cbn [mbind result_bind]. rewrite Hscene. eexists. reflexivity.
Qed.

Lemma summary_total_on_str s :
  formats py_str scene -> formats py_str action ->
  exists s', Dyn._generate_summary py_str (PStr s) scene action = Ok s'.
Proof.
  intros [scene_text Hscene] [action_text Haction].
  unfold Dyn._generate_summary.
  destruct s as [|c s]; cbn [truthy String.eqb negb mbind result_bind].
  - rewrite Hscene. eexists. reflexivity.
  - cbn [py_getitem0].
    destruct (utf8_chars (String c s)) eqn:Hchars;
      [now apply utf8_chars_nonempty in Hchars|].
    cbn [mbind result_bind Dyn.py_format]. rewrite Haction.
    cbn [mbind result_bind]. rewrite Hscene. eexists. reflexivity.
Qed.

Lemma py_strings_ok l :
  forallb is_str l = true -> exists ss, py_strings l = Ok ss.
Proof.
  induction l as [|[] l IH]; cbn [forallb is_str andb py_strings];
    intros H; try discriminate H.
  - now exists [].
  - destruct (IH H) as [ss ->]. eexists. reflexivity.
Qed.

Lemma py_strings_raise l :
  forallb is_str l = false -> py_strings l = Raise TypeError.
Proof.
  induction l as [|[] l IH]; cbn [forallb is_str andb py_strings];
    intros H; try discriminate H; try reflexivity.
  now rewrite (IH H).
Qed.

Lemma filter_keeps_strings (f : pyval -> bool) l :
  forallb is_str l = true -> forallb is_str (List.filter f l) = true.
Proof.
  induction l as [|x l IH]; [reflexivity|].
  cbn [forallb List.filter]. intros H. apply andb_true_iff in H.
  destruct H as [Hx Hl]. destruct (f x); cbn [forallb]; rewrite ?Hx; auto.
Qed.

Lemma strings_of_map_PStr l : forallb is_str (map PStr l) = true.
Proof. induction l; [reflexivity|exact IHl]. Qed.

Lemma formats_strings v : is_str v = true -> formats py_str v.
Proof. destruct v; try discriminate. intros _. now eexists. Qed.

(** What is left of [_create_description] once the person clause is made. *)
Lemma description_rest_on_items combinations l :
  (forall v, In v l -> formats py_str v) ->
  formats py_str scene -> formats py_str action ->
  l <> [] ->
  (((length (non_person l) <=? 1)%nat || forallb is_str (non_person l)) = true ->
   exists d,
     Dyn._create_description py_str combinations (PList l) scene action
     = Ok d)
  /\ (((length (non_person l) <=? 1)%nat || forallb is_str (non_person l))
      = false ->
      Dyn._create_description py_str combinations (PList l) scene action
      = Raise TypeError).
Proof.
  intros Hitems [scene_text Hscene] [action_text Haction] Hne.
  unfold Dyn._create_description.
  destruct l as [|x l]; [congruence|].
  cbn [truthy negb py_contains py_iter mbind result_bind].
  fold (non_person (x :: l)).
  assert (forall v, In v (non_person (x :: l)) -> formats py_str v) as Hothers.
  { intros v Hv. apply Hitems. unfold non_person in Hv.
    now apply filter_In in Hv. }
  destruct (existsb _ (x :: l)); cbn [mbind result_bind];
    rewrite ?Haction; cbn [mbind result_bind];
    destruct (non_person (x :: l)) as [|o [|o' others]];
    cbn [length Nat.leb orb mbind result_bind].
  all: try (rewrite Hscene; split; [eexists; reflexivity|discriminate]).
  all: try (destruct (Hothers o) as [o_text Ho]; [now left|];
            rewrite Ho; cbn [mbind result_bind]; rewrite Hscene;
            split; [eexists; reflexivity|discriminate]).
  all: unfold py_join; split; intros H;
    [ destruct (py_strings_ok _ H) as [ss ->]; cbn [mbind result_bind];
      rewrite Hscene; eexists; reflexivity
    | now rewrite (py_strings_raise _ H) ].
Qed.

Lemma description_on_list combinations l :
  (forall v, In v l -> formats py_str v) ->
  formats py_str scene -> formats py_str action ->
  (accepted_objects (PList l) = true ->
   exists d,
     Dyn._create_description py_str combinations (PList l) scene action
     = Ok d)
  /\ (accepted_objects (PList l) = false ->
      Dyn._create_description py_str combinations (PList l) scene action
      = Raise TypeError).
Proof.
  intros Hitems Hscene Haction. unfold accepted_objects.
  destruct l as [|x l].
  - destruct Hscene as [scene_text Hscene].
    unfold Dyn._create_description.
    cbn [truthy negb mbind result_bind]. rewrite Hscene.
    split; [eexists; reflexivity|discriminate].
  - now apply description_rest_on_items.
Qed.

(** Without any assumption on the replacement fields: a list that is not
    accepted gives no description. *)
Lemma description_not_ok combinations l d :
  accepted_objects (PList l) = false ->
  Dyn._create_description py_str combinations (PList l) scene action <> Ok d.
Proof.
  unfold accepted_objects, Dyn._create_description.
  destruct l as [|x l]; [discriminate|].
  cbn [truthy negb py_contains py_iter mbind result_bind].
  fold (non_person (x :: l)).
  destruct (existsb _ (x :: l)); cbn [mbind result_bind];
    try destruct (Dyn.py_format py_str action); cbn [mbind result_bind];
    try discriminate;
    destruct (non_person (x :: l)) as [|o [|o' others]];
    cbn [length Nat.leb orb]; try discriminate;
    intros H; unfold py_join; now rewrite (py_strings_raise _ H).
Qed.

Lemma description_total_on_str combinations s :
  formats py_str scene -> formats py_str action ->
  exists d,
    Dyn._create_description py_str combinations (PStr s) scene action = Ok d.
Proof.
  intros [scene_text Hscene] [action_text Haction].
  unfold Dyn._create_description.
  destruct (negb (truthy (PStr s))); cbn [mbind result_bind];
    [rewrite Hscene; eexists; reflexivity|].
  cbn [py_contains py_iter mbind result_bind].
  pose proof (filter_keeps_strings
                (fun obj => negb (py_eq_str obj "person"))
                (map PStr (utf8_chars s)) (strings_of_map_PStr _)) as Hstr.
  destruct (substringb "person" s); cbn [mbind result_bind];
    rewrite ?Haction; cbn [mbind result_bind];
    destruct (List.filter _ (map PStr (utf8_chars s))) as [|o [|o' others]];
    cbn [mbind result_bind].
  all: try (rewrite Hscene; eexists; reflexivity).
  all: try (cbn [forallb] in Hstr; apply andb_true_iff in Hstr;
            destruct Hstr as [Ho _];
            destruct (formats_strings o Ho) as [o_text Hfo];
            rewrite Hfo; cbn [mbind result_bind]; rewrite Hscene;
            eexists; reflexivity).
  all: unfold py_join; destruct (py_strings_ok _ Hstr) as [ss ->];
    cbn [mbind result_bind]; rewrite Hscene; eexists; reflexivity.
Qed.

Lemma context_total_on_list l :
  exists c, Dyn._analyze_context (PList l) scene action = Ok c.
Proof.
  unfold Dyn._analyze_context, Dyn.object_contexts, Dyn.person_and.
  cbn [py_contains mbind result_bind].
  repeat match goal with
    | |- context [if ?b then _ else _] => destruct b; cbn [mbind result_bind]
    end;
    match goal with
    | |- context [match ?l with [] => _ | _ :: _ => _ end] =>
        destruct l; eexists; reflexivity
    end.
Qed.

Lemma context_total_on_str s :
  exists c, Dyn._analyze_context (PStr s) scene action = Ok c.
Proof.
  unfold Dyn._analyze_context, Dyn.object_contexts, Dyn.person_and.
  cbn [py_contains mbind result_bind].
  repeat match goal with
    | |- context [if ?b then _ else _] => destruct b; cbn [mbind result_bind]
    end;
    match goal with
    | |- context [match ?l with [] => _ | _ :: _ => _ end] =>
        destruct l; eexists; reflexivity
    end.
Qed.

Lemma analysis_of_ok_inv combinations patterns objects analysis :
  analysis_of py_str combinations patterns objects scene action time
  = Ok analysis ->
  (exists d,
     Dyn._create_description py_str combinations objects scene action = Ok d)
  /\ (exists c, Dyn._analyze_context objects scene action = Ok c)
  /\ (exists st,
        Dyn._check_suspicious_activity patterns objects scene action time
        = Ok st).
Proof.
  unfold analysis_of.
  destruct (Dyn._generate_summary _ _ _ _); cbn [mbind result_bind];
    [|discriminate].
  destruct (Dyn._create_description _ _ _ _ _); cbn [mbind result_bind];
    [|discriminate].
  destruct (Dyn._analyze_context _ _ _); cbn [mbind result_bind];
    [|discriminate].
  destruct (Dyn._check_suspicious_activity _ _ _ _ _) as [[lvl hl]|];
    cbn [mbind result_bind]; [|discriminate].
  intros _. repeat split; eexists; reflexivity.
Qed.

Lemma analysis_of_not_accepted v analysis :
  accepted_objects v = false ->
  analysis_of py_str common_combinations suspicious_patterns v scene action
    time
  <> Ok analysis.
Proof.
  intros Hacc Hok. apply analysis_of_ok_inv in Hok.
  destruct Hok as [[d Hd] [[c Hc] [st Hst]]].
  destruct v as [| b |z|s|l].
  - discriminate Hc.
  - discriminate Hc.
  - discriminate Hc.
  - discriminate Hst.
  - now apply (description_not_ok common_combinations l d) in Hacc.
Qed.

Lemma analysis_of_formatted v :
  formats py_str scene -> formats py_str action ->
  (forall item, In item (items v) -> formats py_str item) ->
  (accepted_objects v = true ->
   exists analysis,
     analysis_of py_str common_combinations suspicious_patterns v scene action
       time
     = Ok analysis)
  /\ (accepted_objects v = false ->
      analysis_of py_str common_combinations suspicious_patterns v scene
        action time
      = Raise TypeError).
Proof.
  intros Hscene Haction Hitems. unfold analysis_of.
  destruct v as [| [|] |z|s|l].
  - split; [discriminate|intros _].
    destruct Hscene as [scene_text Hscene].
    unfold Dyn._generate_summary, Dyn._create_description.
    cbn [truthy negb mbind result_bind]. rewrite Hscene. reflexivity.
  - split; [discriminate|reflexivity].
  - split; [discriminate|intros _].
    destruct Hscene as [scene_text Hscene].
    unfold Dyn._generate_summary, Dyn._create_description.
    cbn [truthy negb mbind result_bind]. rewrite Hscene. reflexivity.
  - split; [discriminate|intros _].
    destruct Hscene as [scene_text Hscene].
    unfold Dyn._generate_summary, Dyn._create_description.
    cbn [truthy]. destruct (Z.eqb z 0); cbn [negb mbind result_bind];
      rewrite ?Hscene; reflexivity.
  - split; [discriminate|intros _].
    destruct (summary_total_on_str s Hscene Haction) as [s' ->].
    destruct (description_total_on_str common_combinations s Hscene Haction)
      as [d ->].
    destruct (context_total_on_str s) as [c ->].
    reflexivity.
  - destruct (summary_total_on_list l Hscene Haction Hitems) as [s' ->].
    destruct (context_total_on_list l) as [c ->].
    destruct (check_total scene action time suspicious_patterns l)
      as [[lvl hl] ->].
    destruct (description_on_list common_combinations l Hitems Hscene Haction)
      as [Hok Hraise].
    split; intros H.
    + destruct (Hok H) as [d ->]. eexists. reflexivity.
    + now rewrite (Hraise H).
Qed.

End AnyObjects.

(** X15: [analyze] reads no key but [detected_objects], [scene], [action]
    and [time]: setting any other key of the input to any value changes
    nothing of what it returns or raises. *)
Theorem analyze_ignores_other_keys :
  forall py_str (vision_input : gmap string pyval) (key : string)
         (v : pyval),
    ~ In key ["detected_objects"; "scene"; "action"; "time"] ->
    analyze py_str (<[key := v]> vision_input)
    = analyze py_str vision_input.
Proof.
  intros py_str vision_input key v Hkey.
  apply analyze_reads_four_keys; apply lookup_insert_ne;
    intros ->; apply Hkey; simpl; tauto.
Qed.

Lemma analyze_ignores_other_keys_witness :
  analyze (fun _ => Raise ValueError)
    (<["confidence" := PInt 97]> {[ "scene" := PStr "park" ]})
  = analyze (fun _ => Raise ValueError) {[ "scene" := PStr "park" ]}.
Proof.
  apply analyze_ignores_other_keys.
  simpl. intros [H|[H|[H|[H|[]]]]]; discriminate H.
Defined.

(** X16: when [detected_objects], or its default, is not a list whose items
    other than "person" are at most one or are all strings, [analyze] returns
    no analysis.  When the replacement fields of scene, action and of the
    items of the list raise nothing, it returns an analysis for every such
    list and raises TypeError for every other value. *)
Theorem analyze_raises_exactly :
  forall py_str (vision_input : gmap string pyval),
    (accepted_objects (dict_get vision_input "detected_objects" (PList []))
     = false ->
     forall analysis, analyze py_str vision_input <> Ok analysis)
    /\ (formats py_str (dict_get vision_input "scene" (PStr "unknown")) ->
        formats py_str (dict_get vision_input "action" (PStr "stationary")) ->
        (forall item,
           In item
             (items (dict_get vision_input "detected_objects" (PList []))) ->
           formats py_str item) ->
        (accepted_objects
           (dict_get vision_input "detected_objects" (PList [])) = true ->
         exists analysis, analyze py_str vision_input = Ok analysis)
        /\ (accepted_objects
              (dict_get vision_input "detected_objects" (PList [])) = false ->
            analyze py_str vision_input = Raise TypeError)).
Proof.
  intros py_str vision_input. rewrite analyze_unfold. split.
  - intros Hacc analysis. now apply analysis_of_not_accepted.
  - intros Hscene Haction Hitems. now apply analysis_of_formatted.
Qed.

Lemma analyze_raises_exactly_witness :
  analyze (fun v => match v with PInt _ => Ok "3" | _ => Raise ValueError end)
    {[ "detected_objects" := PList [PStr "person"; PInt 3; PStr "dog"] ]}
  = Raise TypeError.
Proof.
  apply (analyze_raises_exactly
           (fun v => match v with PInt _ => Ok "3" | _ => Raise ValueError end)
           {[ "detected_objects" := PList [PStr "person"; PInt 3; PStr "dog"] ]}).
  - now eexists.
  - now eexists.
  - intros item [<-|[<-|[<-|[]]]]; now eexists.
  - reflexivity.
Defined.

(** ** [format_output] *)

Lemma append_assoc (a b c : string) : (a +:+ b) +:+ c = a +:+ b +:+ c.
Proof. induction a as [|x a IH]; simpl; [reflexivity|now rewrite IH]. Qed.

Lemma join_snoc sep l x :
  l <> [] -> join sep (l ++ [x]) = join sep l +:+ sep +:+ x.
Proof.
  induction l as [|y l IH]; intros Hne; [congruence|].
  destruct l as [|z l]; [reflexivity|].
  change (join sep ((y :: z :: l) ++ [x]))
    with (y +:+ sep +:+ join sep ((z :: l) ++ [x])).
  rewrite IH by discriminate.
  change (join sep (y :: z :: l)) with (y +:+ sep +:+ join sep (z :: l)).
  now rewrite !append_assoc.
Qed.

Lemma occurs_in_refl s : occurs_in s s.
Proof.
  exists "", "". simpl. induction s as [|c s IH]; simpl; congruence.
Qed.

Lemma occurs_in_app_l sub x y : occurs_in sub x -> occurs_in sub (x +:+ y).
Proof.
  intros [before [after ->]]. exists before, (after +:+ y).
  now rewrite !append_assoc.
Qed.

Lemma occurs_in_app_r sub x y : occurs_in sub y -> occurs_in sub (x +:+ y).
Proof.
  intros [before [after ->]]. exists (x +:+ before), after.
  now rewrite !append_assoc.
Qed.

(** X17: the line "No unusual activity detected" is among the lines of the
    report exactly when the analysis has no highlights. *)
Theorem no_alert_line_exactly_without_highlights :
  forall analysis : VisionAnalysis,
    In no_alert_line (output_lines analysis) <-> highlights analysis = [].
Proof.
  intros analysis. split.
  - intros Hin. destruct (highlights analysis) as [|h hs] eqn:Hhl;
      [reflexivity|].
    destruct (output_lines_with_alerts analysis) as [_ Hnot];
      [congruence|]. now apply Hnot in Hin.
  - intros Hhl. unfold output_lines. rewrite Hhl.
    apply in_or_app. right. now left.
Qed.

(** X18: the report has nine entries besides one for each highlight, and
    every highlight is rendered as an entry of its own, two spaces, a dash
    and a space before it. *)
Theorem report_entries :
  forall analysis : VisionAnalysis,
    length (output_lines analysis) = 9 + length (highlights analysis)
    /\ (forall h, In h (highlights analysis) ->
          In ("  - " +:+ h) (output_lines analysis)).
Proof.
  intros analysis. unfold output_lines, alert_lines. split.
  - destruct (highlights analysis) as [|h hs]; [reflexivity|].
    rewrite !length_app. cbn [length report_head]. rewrite length_map.
    cbn [length]. lia.
  - intros h Hin. destruct (highlights analysis) as [|h' hs] eqn:Hhl;
      [destruct Hin|].
    rewrite !in_app_iff. right. left. right.
    apply in_map_iff. now exists h.
Qed.

(** X19: every report opens with the rule of fifty "=", the title and the
    rule again, closes with an empty line and the rule, and holds the summary,
    the description and the context of the analysis as they are. *)
Theorem report_frame_and_content :
  forall analysis : VisionAnalysis,
    (exists rest,
       format_output analysis
       = str_repeat "=" 50 +:+ nl +:+ "VISION ANALYSIS REPORT" +:+ nl
           +:+ str_repeat "=" 50 +:+ nl +:+ rest)
    /\ (exists start,
          format_output analysis
          = start +:+ nl +:+ nl +:+ str_repeat "=" 50)
    /\ occurs_in (summary analysis) (format_output analysis)
    /\ occurs_in (description analysis) (format_output analysis)
    /\ occurs_in (context analysis) (format_output analysis).
Proof.
  intros analysis. unfold format_output, output_lines.
  set (middle := match highlights analysis with
                 | [] => [no_alert_line]
                 | _ :: _ => alert_lines (highlights analysis)
                 end).
  split; [|split].
  - unfold report_head. cbn [app join]. eexists. reflexivity.
  - rewrite app_assoc, join_snoc by (unfold report_head; discriminate).
    eexists. reflexivity.
  - unfold report_head. cbn [app join].
    split; [|split].
    + do 3 (apply occurs_in_app_r; apply occurs_in_app_r).
      apply occurs_in_app_l. do 2 apply occurs_in_app_r.
      apply occurs_in_refl.
    + do 4 (apply occurs_in_app_r; apply occurs_in_app_r).
      apply occurs_in_app_l. do 2 apply occurs_in_app_r.
      apply occurs_in_refl.
    + do 5 (apply occurs_in_app_r; apply occurs_in_app_r).
      apply occurs_in_app_l. do 2 apply occurs_in_app_r.
      apply occurs_in_refl.
Qed.

(** ** [analyze] and the fields of its input *)








(** ** Calls of [analyze] one after another *)

Lemma calls_run py_str inputs self :
  calls py_str inputs self
  = (map (fun vision_input => (Method.analyze py_str vision_input self).1)
       inputs,
     self).
Proof.
  induction inputs as [|vision_input inputs IH]; [reflexivity|].
  cbn [calls map]. rewrite method_analyze_run. cbn [fst].
  rewrite IH. reflexivity.
Qed.

(** C9: a call of [analyze] leaves the instance as it was, so what a call
    returns or raises does not depend on the calls made before it: when a
    caller calls [analyze] on one instance with an input, then with any other
    inputs, then with the first input again, the instance is unchanged at the
    end, and the first and the last call give the same result (the same
    exception, or an analysis with the same summary, description, context,
    level and highlights), which is also what the call gives on the instance
    as it was at the start. *)
Theorem analyze_deterministic :
  forall py_str (self : VisionInterpreter)
         (vision_input : gmap string pyval)
         (between : list (gmap string pyval)),
    exists r rs,
      calls py_str (vision_input :: between ++ [vision_input]) self
      = (r :: rs ++ [r], self)
      /\ length rs = length between
      /\ r = (Method.analyze py_str vision_input self).1
      /\ (Method.analyze py_str vision_input self).2 = self
      /\ (forall analysis1 analysis2,
            hd_error (calls py_str (vision_input :: between ++ [vision_input])
                        self).1 = Some (Ok analysis1) ->
            last (calls py_str (vision_input :: between ++ [vision_input])
                    self).1 = Some (Ok analysis2) ->
            summary analysis1 = summary analysis2
            /\ description analysis1 = description analysis2
            /\ context analysis1 = context analysis2
            /\ suspicion_level analysis1 = suspicion_level analysis2
            /\ highlights analysis1 = highlights analysis2).
Proof.
  intros py_str self vision_input between.
  exists (Method.analyze py_str vision_input self).1,
    (map (fun i => (Method.analyze py_str i self).1) between).
  rewrite calls_run. cbn [map fst]. rewrite map_app. cbn [map].
  split; [reflexivity|]. split; [apply length_map|].
  split; [reflexivity|]. split; [now rewrite method_analyze_run|].
  intros analysis1 analysis2 Hfirst Hlast.
  cbn [hd_error] in Hfirst.
  change (?x :: ?l ++ [?y]) with ((x :: l) ++ [y]) in Hlast.
  rewrite last_snoc in Hlast.
  assert (analysis1 = analysis2) as -> by congruence.
  repeat split.
Qed.
